(** * The blog agent of [main.py]: a shallow embedding and its properties

    [main.py] is a straight-line pipeline of calls to four outside services (a
    chat-completion endpoint, an image endpoint, blob storage and a
    git-hosting API) behind a small HTTP service.

    - A Python [str] is a [string]; each [ascii] stands for the code point of
      the same number (0..255), so the character classes below are those of
      Python on that range.
    - A Python value (what [yaml.safe_load] and [json.loads] build) is a
      [pyval]; a [dict] is an association list in insertion order.
    - A computation is a function from the [world] to a result or a raised
      exception, and the next [world]; the outside services are the fields of
      an [env], each a function of the history of calls made so far.
    - [logger] calls are left out, except for the clock they read. *)

From Stdlib Require Import String Ascii List ZArith Lia Bool.
From Stdlib Require Import DecimalString.
From Stdlib Require Import PrimFloat FloatOps SpecFloat Uint63.
Import ListNotations.
Local Open Scope string_scope.

Set Implicit Arguments.
Set Warnings "-register-all".

(* ===================================================================== *)
(** ** Python strings *)
(* ===================================================================== *)

Module PyStr.

Definition code (c : ascii) : nat := nat_of_ascii c.

Definition between (lo hi n : nat) : bool := (lo <=? n)%nat && (n <=? hi)%nat.

(** [str.isspace] on one character: TAB..CR, FS..US, SPACE, NEL, NBSP. *)
Definition isspace (c : ascii) : bool :=
  let n := code c in
  between 9 13 n || between 28 32 n || (n =? 133)%nat || (n =? 160)%nat.

(** [str.isdigit] on one character: 0..9 and the superscripts 1, 2, 3. *)
Definition isdigit_char (c : ascii) : bool :=
  let n := code c in
  between 48 57 n || (n =? 178)%nat || (n =? 179)%nat || (n =? 185)%nat.

(** [s.isdigit()]: every character is a digit and there is at least one. *)
Fixpoint all_digits (s : string) : bool :=
  match s with
  | EmptyString => true
  | String c r => isdigit_char c && all_digits r
  end.

Definition isdigit (s : string) : bool :=
  match s with
  | EmptyString => false
  | _ => all_digits s
  end.

Fixpoint lstrip (s : string) : string :=
  match s with
  | EmptyString => EmptyString
  | String c r => if isspace c then lstrip r else s
  end.

Fixpoint rstrip (s : string) : string :=
  match s with
  | EmptyString => EmptyString
  | String c r =>
      match rstrip r with
      | EmptyString => if isspace c then EmptyString else String c EmptyString
      | r' => String c r'
      end
  end.

(** [s.strip()] *)
Definition strip (s : string) : string := rstrip (lstrip s).

(** [s.startswith(p)] *)
Definition startswith (s p : string) : bool := String.prefix p s.

Fixpoint drop (n : nat) (s : string) : string :=
  match n, s with
  | O, _ => s
  | S n', String _ r => drop n' r
  | S _, EmptyString => EmptyString
  end.

(** The lowest position at which [sub] occurs in [s]. *)
Fixpoint find (sub s : string) : option nat :=
  if String.prefix sub s then Some O
  else match s with
       | EmptyString => None
       | String _ r => option_map S (find sub r)
       end.

(** [s.find(sub, start)], with [None] for Python's -1. *)
Definition find_from (sub s : string) (start : nat) : option nat :=
  if (start <=? String.length s)%nat
  then option_map (Nat.add start) (find sub (drop start s))
  else None.

(** [s[lo:hi]] for [0 <= lo] and [0 <= hi]. *)
Definition slice (s : string) (lo hi : nat) : string :=
  String.substring lo (hi - lo) s.

Definition lower_char (c : ascii) : ascii :=
  let n := code c in
  if between 65 90 n || (between 192 222 n && negb (n =? 215)%nat)
  then ascii_of_nat (n + 32) else c.

Fixpoint map_chars (f : ascii -> ascii) (s : string) : string :=
  match s with
  | EmptyString => EmptyString
  | String c r => String (f c) (map_chars f r)
  end.

(** Reading a file in text mode: CR LF and a lone CR become LF. *)
Fixpoint universal_newlines (s : string) : string :=
  match s with
  | EmptyString => EmptyString
  | String c r =>
      if (code c =? 13)%nat
      then match r with
           | String d r' =>
               if (code d =? 10)%nat
               then String d (universal_newlines r')
               else String (ascii_of_nat 10) (universal_newlines r)
           | EmptyString => String (ascii_of_nat 10) EmptyString
           end
      else String c (universal_newlines r)
  end.

(** [s.lower()] *)
Definition lower : string -> string := map_chars lower_char.

(** [s.replace(a, b)] for one-character [a] and [b]. *)
Definition replace_char (a b : ascii) : string -> string :=
  map_chars (fun c => if Ascii.eqb c a then b else c).

(** Every character is white space (true of the empty string). *)
Fixpoint all_space (s : string) : bool :=
  match s with
  | EmptyString => true
  | String c r => isspace c && all_space r
  end.

(** Whether a character occurs in a string. *)
Fixpoint mem (c : ascii) (s : string) : bool :=
  match s with
  | EmptyString => false
  | String d r => Ascii.eqb c d || mem c r
  end.

(** [str(n)] for an [int]. *)
Definition of_Z (z : Z) : string := NilZero.string_of_int (Z.to_int z).

Definition of_N (n : N) : string := NilZero.string_of_uint (N.to_uint n).

End PyStr.

(* ===================================================================== *)
(** ** Python values *)
(* ===================================================================== *)

(** The values [yaml.safe_load] and [json.loads] return.  [PObj] stands for
    any other object they can build (a date, a datetime, bytes, a set): the
    program can only see its class, its [str()] and its truth value. *)
Inductive pyval : Type :=
| PNone
| PBool (b : bool)
| PInt (z : Z)
| PFloat (f : float)
| PStr (s : string)
| PList (l : list pyval)
| PDict (d : list (pyval * pyval))
| PObj (cls : string) (shown : string) (truth : bool).

Module Py.

Definition dict := list (pyval * pyval).

Definition is_key (k : string) (key : pyval) : bool :=
  match key with
  | PStr s => String.eqb s k
  | _ => false
  end.

(** [d.get(k)] for a [str] key: the value bound to [k], if any. *)
Fixpoint lookup (k : string) (d : dict) : option pyval :=
  match d with
  | [] => None
  | (key, v) :: r => if is_key k key then Some v else lookup k r
  end.

(** [d.get(k, default)] *)
Definition get (k : string) (default : pyval) (d : dict) : pyval :=
  match lookup k d with
  | Some v => v
  | None => default
  end.

(** [d[k] = v] on a key that is bound: the binding keeps its place. *)
Fixpoint update (k : string) (v : pyval) (d : dict) : dict :=
  match d with
  | [] => []
  | (key, old) :: r =>
      if is_key k key then (key, v) :: r else (key, old) :: update k v r
  end.

(** [bool(v)] *)
Definition truthy (v : pyval) : bool :=
  match v with
  | PNone => false
  | PBool b => b
  | PInt z => negb (z =? 0)%Z
  | PFloat f => negb (PrimFloat.eqb f PrimFloat.zero)
  | PStr s => negb (String.eqb s "")
  | PList l => match l with [] => false | _ => true end
  | PDict d => match d with [] => false | _ => true end
  | PObj _ _ t => t
  end.

(** [type(v).__name__] *)
Definition type_name (v : pyval) : string :=
  match v with
  | PNone => "NoneType"
  | PBool _ => "bool"
  | PInt _ => "int"
  | PFloat _ => "float"
  | PStr _ => "str"
  | PList _ => "list"
  | PDict _ => "dict"
  | PObj cls _ _ => cls
  end.

(** A dict literal with [str] keys. *)
Definition obj (fields : list (string * pyval)) : pyval :=
  PDict (map (fun kv => (PStr (fst kv), snd kv)) fields).

End Py.

(* ===================================================================== *)
(** ** Exceptions *)
(* ===================================================================== *)

Inductive exn_class : Type :=
| ValueError
| RuntimeError
| FileNotFoundError
| AttributeError
| KeyError
| TypeError
| OverflowError
| HTTPException (status_code : Z)
| LibraryError (name : string).

(** A raised exception: its class and its message ([detail] for an
    [HTTPException]).  Every exception of the model derives from
    [Exception]; interpreter exits ([KeyboardInterrupt], [SystemExit]) are
    not modelled. *)
Inductive exn : Type := Raise (c : exn_class) (msg : string).

(** [str(e)] *)
Definition exn_str (e : exn) : string :=
  match e with
  | Raise (HTTPException code) detail => PyStr.of_Z code ++ ": " ++ detail
  | Raise _ msg => msg
  end.

Definition result (A : Type) : Type := (exn + A)%type.

Definition rbind {A B} (r : result A) (k : A -> result B) : result B :=
  match r with
  | inl e => inl e
  | inr a => k a
  end.

Declare Scope result_scope.
Delimit Scope result_scope with result.
Notation "x <-- r ;; k" := (rbind r (fun x => k))
  (at level 61, r at next level, right associativity) : result_scope.

Module PyOps.

(** [v.get(k, default)]: only a dict has the method. *)
Definition get (v : pyval) (k : string) (default : pyval) : result pyval :=
  match v with
  | PDict d => inr (Py.get k default d)
  | _ => inl (Raise AttributeError
                ("'" ++ Py.type_name v ++ "' object has no attribute 'get'"))
  end.

(** [v[k]] for a [str] key [k]. *)
Definition getitem (v : pyval) (k : string) : result pyval :=
  match v with
  | PDict d =>
      match Py.lookup k d with
      | Some x => inr x
      | None => inl (Raise KeyError ("'" ++ k ++ "'"))
      end
  | PList _ =>
      inl (Raise TypeError "list indices must be integers or slices, not str")
  | PStr _ =>
      inl (Raise TypeError "string indices must be integers, not 'str'")
  | _ => inl (Raise TypeError
                ("'" ++ Py.type_name v ++ "' object is not subscriptable"))
  end.

(** [v[k].append(x)]: the list bound to [k] in [v] grows in place, so the
    value of [v] afterwards is returned. *)
Definition getitem_append (v : pyval) (k : string) (x : pyval) : result pyval :=
  match getitem v k with
  | inl e => inl e
  | inr (PList l) =>
      match v with
      | PDict d => inr (PDict (Py.update k (PList (l ++ [x])) d))
      | _ => inr v
      end
  | inr other =>
      inl (Raise AttributeError
             ("'" ++ Py.type_name other ++ "' object has no attribute 'append'"))
  end.

(** [int(f)] for a float: truncation towards zero. *)
Definition int_of_float (f : float) : result Z :=
  match Prim2SF f with
  | S754_zero _ => inr 0%Z
  | S754_infinity _ =>
      inl (Raise OverflowError "cannot convert float infinity to integer")
  | S754_nan => inl (Raise ValueError "cannot convert float NaN to integer")
  | S754_finite s m e =>
      let a := Z.shiftl (Zpos m) e in
      inr (if s then (- a)%Z else a)
  end.

End PyOps.

(* ===================================================================== *)
(** ** The outside world *)
(* ===================================================================== *)

Definition bytes := list Byte.byte.

(** What the program asks of the outside, in the order it asks. *)
Inductive event : Type :=
| EvTime                                   (* time.time() *)
| EvNow                                    (* datetime.now() *)
| EvRandom                                 (* random.choice *)
| EvChat (model prompt : string) (max_tokens : Z)
| EvImage (model prompt size quality : string) (n : Z)
| EvHttpGet (url : string) (timeout : Z)
| EvPut (filename : string) (data : bytes) (access contentType : string)
| EvGetRepo (full_name : string)
| EvCreateFile (path message content : string)
| EvGetContents (path : string)
| EvUpdateFile (path message content sha : string).

(** [datetime.now()], as far as the program looks at it. *)
Record datetime : Type := { isoformat : string; year : N }.

(** The [ContentFile] that [repo.get_contents] returns: the text of
    [decoded_content.decode()] (or what it raises) and the [sha]. *)
Record content_file : Type := { decoded : result string; sha : string }.

(** The behaviour of everything outside the program.  Each service answers
    as a function of the events before the call and of the call's arguments;
    the three parsing and printing libraries are functions of their argument
    alone. *)
Record env : Type := {
  time_time : list event -> float;
  datetime_now : list event -> datetime;
  random_choice : list event -> nat;
  getenv_GIT_TOKEN : option string;
  (* client.chat.completions.create(...).choices[0].message.content *)
  chat_completions_create : list event -> string -> Z -> result (option string);
  (* client.images.generate(...).data[0].url *)
  images_generate : list event -> string -> result (option string);
  (* requests.get(url, timeout=10), raise_for_status(), .content *)
  requests_get : list event -> string -> result bytes;
  (* vercel_blob.put: the fields of the response *)
  blob_put : list event -> string -> bytes -> result (list (string * string));
  github_get_repo : list event -> string -> result unit;
  repo_create_file : list event -> string -> string -> string -> result unit;
  repo_get_contents : list event -> string -> result content_file;
  repo_update_file : list event -> string -> string -> string -> string -> result unit;
  yaml_safe_load : string -> result pyval;
  json_loads : string -> result pyval;
  (* json.dumps(v, indent=2) *)
  json_dumps : pyval -> result string;
  (* str(v) for a float, a list or a dict *)
  py_repr : pyval -> string
}.

(** The state the program changes: the history of its calls and the file
    [/tmp/report.md]. *)
Record world : Type := { trace : list event; report_md : option string }.

Definition log_event (ev : event) (w : world) : world :=
  {| trace := trace w ++ [ev]; report_md := report_md w |}.

(* ===================================================================== *)
(** ** Computations *)
(* ===================================================================== *)

Definition M (A : Type) : Type := world -> result A * world.

Definition ret {A} (a : A) : M A := fun w => (inr a, w).

Definition raise {A} (e : exn) : M A := fun w => (inl e, w).

Definition bind {A B} (m : M A) (k : A -> M B) : M B :=
  fun w =>
    match m w with
    | (inr a, w') => k a w'
    | (inl e, w') => (inl e, w')
    end.

(** [try: m  except Exception as e: h e] *)
Definition try_except {A} (m : M A) (h : exn -> M A) : M A :=
  fun w =>
    match m w with
    | (inr a, w') => (inr a, w')
    | (inl e, w') => h e w'
    end.

(** A pure step that may raise. *)
Definition lift {A} (r : result A) : M A := fun w => (r, w).

(** A call to the outside: the answer depends on the history, and the call
    joins it. *)
Definition call {A} (ev : event) (answer : list event -> A) : M A :=
  fun w => (inr (answer (trace w)), log_event ev w).

Definition call_result {A} (ev : event) (answer : list event -> result A) : M A :=
  fun w => (answer (trace w), log_event ev w).

Declare Scope py_scope.
Delimit Scope py_scope with py.
Notation "x <- c ;; k" := (bind c (fun x => k))
  (at level 61, c at next level, right associativity) : py_scope.
Notation "c ;;; k" := (bind c (fun _ => k))
  (at level 61, right associativity) : py_scope.
Local Open Scope py_scope.

(* ===================================================================== *)
(** ** The stages of the pipeline *)
(* ===================================================================== *)

Definition nl : string := String (ascii_of_nat 10) EmptyString.

(** A triple-quoted literal written inside a function body: a newline, the
    lines (each with its indentation), a newline and the indentation of the
    closing quotes. *)
Definition block (lines : list string) : string :=
  nl ++ String.concat nl lines ++ nl ++ "    ".

(** [str(v)], as an f-string field formats it. *)
Definition py_str (E : env) (v : pyval) : string :=
  match v with
  | PNone => "None"
  | PBool true => "True"
  | PBool false => "False"
  | PInt z => PyStr.of_Z z
  | PStr s => s
  | PObj _ shown _ => shown
  | PFloat _ | PList _ | PDict _ => py_repr E v
  end.

Definition categories : list string :=
  [ "AI"; "Web3"; "Blockchain Fusion"; "Startups"; "Tech Culture";
    "Tools & Reviews"; "How-Tos"; "Editorials"; "AGI" ].

Definition placeholder_url : string := "https://example.com/placeholder.jpg".

Definition blogs_dir : string := "outstatic/content/blogs/".

Definition metadata_path : string := "outstatic/content/metadata.json".

Definition empty_index : pyval := Py.obj [("metadata", PList [])].

Section Agent.

Variable E : env.

(** *** The primitive calls *)

Definition now_time : M float := call EvTime (time_time E).

Definition now_datetime : M datetime := call EvNow (datetime_now E).

(** [random.choice(xs)] on a non-empty list. *)
Definition choice (xs : list string) : M string :=
  i <- call EvRandom (random_choice E) ;;
  ret (nth (i mod length xs) xs "").

(** The category [random.choice(categories)] draws in world [w]. *)
Definition drawn (w : world) : string :=
  nth (random_choice E (trace w) mod length categories) categories "".

(** One chat completion with model gpt-4o-mini and temperature 0.7, up to
    [response.choices[0].message.content]. *)
Definition chat (prompt : string) (max_tokens : Z) : M (option string) :=
  call_result (EvChat "gpt-4o-mini" prompt max_tokens)
              (fun h => chat_completions_create E h prompt max_tokens).

(** [content.strip()] on what the model sent, which may be [None]. *)
Definition content_strip (content : option string) : M string :=
  match content with
  | Some text => ret (PyStr.strip text)
  | None =>
      raise (Raise AttributeError "'NoneType' object has no attribute 'strip'")
  end.

Definition is_empty (s : string) : bool := String.eqb s "".

(** *** [research_topic] *)

Definition research_prompt (topic current_year : string) : string :=
  block
    [ "    Summarize key developments in " ++ topic ++ " for " ++ current_year
        ++ " in 8 short bullet points:";
      "    - Recent innovations (1 sentence).";
      "    - Current trends (1 sentence).";
      "    - Key statistics (1 sentence).";
      "    - Future predictions (1 sentence).";
      "    - Practical applications (1 sentence).";
      "    - Notable challenge (1 sentence).";
      "    - Industry impact (1 sentence).";
      "    - Emerging opportunity (1 sentence).";
      "    Keep it concise, max 30 words per bullet." ].

Definition research_topic (topic current_year : string) : M string :=
  if is_empty topic || is_empty (PyStr.strip topic)
  then raise (Raise ValueError "Topic cannot be empty")
  else if negb (PyStr.isdigit current_year)
  then raise (Raise ValueError "Current year must be a number")
  else
    let prompt := research_prompt topic current_year in
    start_time <- now_time ;;
    try_except
      (response <- chat prompt 300 ;;
       content <- content_strip response ;;
       if is_empty content
       then raise (Raise ValueError "Empty OpenAI response")
       else now_time ;;; ret content)
      (fun e => raise (Raise RuntimeError ("Research failed: " ++ exn_str e))).

(** *** [generate_image_prompt] *)

Definition image_prompt_prompt (topic title research_output : string) : string :=
  block
    [ "    Create a prompt for an image based on the blog post titled '" ++ title
        ++ "' in the category '" ++ topic ++ "'.";
      "    Use this research: " ++ research_output;
      "    The image should be visually striking, modern, and relevant (e.g., futuristic AI for AI category, blockchain nodes for Web3).";
      "    Keep the prompt concise, max 20 words." ].

Definition generate_image_prompt (topic title research_output : string) : M string :=
  let prompt := image_prompt_prompt topic title research_output in
  start_time <- now_time ;;
  try_except
    (response <- chat prompt 50 ;;
     content <- content_strip response ;;
     if is_empty content
     then raise (Raise ValueError "Empty image prompt response")
     else now_time ;;; ret content)
    (fun e => raise (Raise RuntimeError
                       ("Image prompt generation failed: " ++ exn_str e))).

(** *** [generate_and_upload_image] *)

Definition blob_filename (title : string) (t : Z) : string :=
  "images/" ++ PyStr.replace_char " " "-" (PyStr.lower title) ++ "-"
    ++ PyStr.of_Z t ++ ".png".

(** [blob_response['url']] *)
Fixpoint field (k : string) (fs : list (string * string)) : result string :=
  match fs with
  | [] => inl (Raise KeyError ("'" ++ k ++ "'"))
  | (k', v) :: r => if String.eqb k' k then inr v else field k r
  end.

Definition generate_and_upload_image (image_prompt title : string) : M string :=
  start_time <- now_time ;;
  try_except
    (image_url <-
       call_result (EvImage "dall-e-3" image_prompt "1024x1024" "standard" 1)
                   (fun h => images_generate E h image_prompt) ;;
     image_data <-
       match image_url with
       | Some url =>
           call_result (EvHttpGet url 10) (fun h => requests_get E h url)
       | None =>
           raise (Raise (LibraryError "MissingSchema")
                    "Invalid URL 'None': No scheme supplied. Perhaps you meant https://None?")
       end ;;
     t <- now_time ;;
     seconds <- lift (PyOps.int_of_float t) ;;
     let filename := blob_filename title seconds in
     blob_response <-
       call_result (EvPut filename image_data "public" "image/png")
                   (fun h => blob_put E h filename image_data) ;;
     blob_url <- lift (field "url" blob_response) ;;
     now_time ;;;
     ret blob_url)
    (fun e => ret placeholder_url).

(** *** [write_blog_post] *)

Definition blog_prompt (topic research_output author_name author_picture_url
                        cover_image_url current_date_iso : string) : string :=
  block
    [ "    Write a short blog post about " ++ topic
        ++ " in Markdown, using this research:";
      "    " ++ research_output;
      "    Start with this frontmatter (single quotes):";
      "    ";
      "    ---";
      "    title: '(Catchy title)'";
      "    status: 'published'";
      "    author:";
      "      name: '" ++ author_name ++ "'";
      "      picture: '" ++ author_picture_url ++ "'";
      "    slug: '(URL-friendly title)'";
      "    description: '(One-sentence summary)'";
      "    coverImage: '" ++ cover_image_url ++ "'";
      "    category: '" ++ topic ++ "'";
      "    publishedAt: '" ++ current_date_iso ++ "'";
      "    ---";
      "    ";
      "    Content: 2-3 paragraphs, max 200 words total, no code blocks." ].

Definition write_blog_post (topic research_output author_name author_picture_url
                            cover_image_url current_date_iso : string) : M string :=
  let prompt := blog_prompt topic research_output author_name author_picture_url
                            cover_image_url current_date_iso in
  start_time <- now_time ;;
  try_except
    (response <- chat prompt 600 ;;
     content <- content_strip response ;;
     if is_empty content
     then raise (Raise ValueError "Empty OpenAI response")
     else now_time ;;; ret content)
    (fun e => raise (Raise RuntimeError ("Blog post failed: " ++ exn_str e))).

(** *** [select_category_and_title] *)

Definition title_prompt (selected_category : string) : string :=
  block
    [ "    Generate a catchy blog post title for the category '"
        ++ selected_category ++ "'.";
      "    Focus on recent trends or innovations (e.g., AI breakthroughs, Web3 scalability, AGI ethics).";
      "    Keep it concise, max 10 words." ].

Definition select_category_and_title : M (string * string) :=
  selected_category <- choice categories ;;
  let prompt := title_prompt selected_category in
  start_time <- now_time ;;
  try_except
    (response <- chat prompt 50 ;;
     title <- content_strip response ;;
     if is_empty title
     then raise (Raise ValueError "Empty title response")
     else now_time ;;; ret (selected_category, title))
    (fun e => raise (Raise RuntimeError ("Title generation failed: " ++ exn_str e))).

(** *** [git_push_callback] *)

(** Lines 184-188: the mapping read from the head of the report. *)
Definition parse_frontmatter (content : string) : result pyval :=
  if PyStr.startswith content "---"
  then
    match PyStr.find_from "---" content 3 with
    | None => inl (Raise ValueError "substring not found")
    | Some frontmatter_end =>
        let frontmatter := PyStr.strip (PyStr.slice content 3 frontmatter_end) in
        match yaml_safe_load E frontmatter with
        | inl e => inl e
        | inr v => inr (if Py.truthy v then v else PDict [])
        end
    end
  else inr (PDict []).

(** Lines 209-226, the fields in the order the dict display evaluates
    them. *)
Definition new_entry (metadata slug : pyval) : result pyval :=
  (category <-- PyOps.get metadata "category" (PStr "Uncategorized") ;;
   coverImage <-- PyOps.get metadata "coverImage" (PStr "") ;;
   description <-- PyOps.get metadata "description" (PStr "") ;;
   publishedAt <-- PyOps.get metadata "publishedAt" (PStr "") ;;
   status <-- PyOps.get metadata "status" (PStr "draft") ;;
   title <-- PyOps.get metadata "title" (PStr "Untitled") ;;
   let path := PStr (blogs_dir ++ py_str E slug ++ ".md") in
   author <-- PyOps.get metadata "author" (PDict []) ;;
   name <-- PyOps.get author "name" (PStr "") ;;
   author' <-- PyOps.get metadata "author" (PDict []) ;;
   picture <-- PyOps.get author' "picture" (PStr "") ;;
   let path' := PStr (blogs_dir ++ py_str E slug ++ ".md") in
   inr (Py.obj
          [ ("category", category);
            ("collection", PStr "blogs");
            ("coverImage", coverImage);
            ("description", description);
            ("publishedAt", publishedAt);
            ("slug", slug);
            ("status", status);
            ("title", title);
            ("path", path);
            ("author", Py.obj [("name", name); ("picture", picture)]);
            ("__outstatic", Py.obj [("path", path')]) ]))%result.

(** Lines 202-207: the handle of the remote index when the fetch went
    through, and the index to extend. *)
Definition fetch_index : M (option content_file * pyval) :=
  try_except
    (metadata_file <-
       call_result (EvGetContents metadata_path)
                   (fun h => repo_get_contents E h metadata_path) ;;
     match decoded metadata_file with
     | inl _ => ret (Some metadata_file, empty_index)
     | inr text =>
         match json_loads E text with
         | inl _ => ret (Some metadata_file, empty_index)
         | inr j => ret (Some metadata_file, j)
         end
     end)
    (fun _ => ret (None, empty_index)).

(** Lines 229-245. *)
Definition store_index (metadata_file : option content_file)
                       (metadata_json : pyval) : M unit :=
  try_except
    (text <- lift (json_dumps E metadata_json) ;;
     match metadata_file with
     | Some f =>
         call_result (EvUpdateFile metadata_path "Update metadata" text (sha f))
                     (fun h => repo_update_file E h metadata_path
                                                "Update metadata" text (sha f))
     | None =>
         call_result (EvCreateFile metadata_path "Create metadata" text)
                     (fun h => repo_create_file E h metadata_path
                                                "Create metadata" text)
     end)
    (fun e => raise (Raise RuntimeError ("Metadata update failed: " ++ exn_str e))).

(** [open(report_file, 'r').read()] when the file exists: text mode turns
    every line ending into a line feed. *)
Definition read_report : M (option string) :=
  fun w => (inr (option_map PyStr.universal_newlines (report_md w)), w).

(** Lines 227-248: append the entry to the index in memory, store the
    index, report success. *)
Definition extend_index (metadata_file : option content_file)
                        (metadata_json entry : pyval) : M string :=
  metadata_json <- lift (PyOps.getitem_append metadata_json "metadata" entry) ;;
  store_index metadata_file metadata_json ;;;
  now_time ;;;
  ret "Successfully pushed blog post".

(** Lines 202-248: fetch the index, derive the entry of the new post, and
    extend the index with it. *)
Definition update_index (metadata slug : pyval) : M string :=
  fetched <- fetch_index ;;
  let (metadata_file, metadata_json) := fetched in
  entry <- lift (new_entry metadata slug) ;;
  extend_index metadata_file metadata_json entry.

(** Lines 192-200. *)
Definition push_post (new_filename content : string) : M unit :=
  try_except
    (call_result
       (EvCreateFile (blogs_dir ++ new_filename) ("Add " ++ new_filename) content)
       (fun h => repo_create_file E h (blogs_dir ++ new_filename)
                                  ("Add " ++ new_filename) content))
    (fun e => raise (Raise RuntimeError ("Push failed: " ++ exn_str e))).

(** Lines 184-248, on the text read from the report. *)
Definition publish (content : string) : M string :=
  metadata <- lift (parse_frontmatter content) ;;
  slug <- lift (PyOps.get metadata "slug" (PStr "default-slug")) ;;
  let new_filename := py_str E slug ++ ".md" in
  push_post new_filename content ;;;
  update_index metadata slug.

Definition repo_name : string := "abdullahhsajid/bmd-portfolio".

Definition git_push_callback : M string :=
  start_time <- now_time ;;
  match getenv_GIT_TOKEN E with
  | None | Some EmptyString => raise (Raise ValueError "GIT_TOKEN not set")
  | Some _ =>
      call_result (EvGetRepo repo_name) (fun h => github_get_repo E h repo_name) ;;;
      report <- read_report ;;
      match report with
      | None => raise (Raise FileNotFoundError "Report file missing")
      | Some text => publish (PyStr.strip text)
      end
  end.

(** The Publisher gets as far as the report: the token is set, the
    repository answers, and the report, once read and stripped, is
    [content]. *)
Definition publisher_reads (w : world) (content : string) : Prop :=
  (exists pat, getenv_GIT_TOKEN E = Some pat /\ pat <> "")
  /\ github_get_repo E (trace w ++ [EvTime]) repo_name = inr tt
  /\ exists text, report_md w = Some text
                  /\ content = PyStr.strip (PyStr.universal_newlines text).

(** The world in which the Publisher starts on the report. *)
Definition at_report (w : world) : world :=
  log_event (EvGetRepo repo_name) (log_event EvTime w).

(** The call that commits the post. *)
Definition post_event (slug : pyval) (content : string) : event :=
  EvCreateFile (blogs_dir ++ py_str E slug ++ ".md")
               ("Add " ++ py_str E slug ++ ".md") content.

(** What [fetch_index] returns, given the answer to [get_contents]. *)
Definition fetched_index (answer : result content_file) : option content_file * pyval :=
  match answer with
  | inl _ => (None, empty_index)
  | inr f =>
      (Some f,
       match decoded f with
       | inl _ => empty_index
       | inr text =>
           match json_loads E text with
           | inl _ => empty_index
           | inr j => j
           end
       end)
  end.

(** The events that read or write the index, and the clock. *)
Definition index_event (ev : event) : bool :=
  match ev with
  | EvTime => true
  | EvGetContents path => String.eqb path metadata_path
  | EvCreateFile path _ _ => String.eqb path metadata_path
  | EvUpdateFile path _ _ _ => String.eqb path metadata_path
  | _ => false
  end.

(** Whether the fetched index file cannot be read back: decoding its
    content raises, or the text is not JSON. *)
Definition undecodable (f : content_file) : bool :=
  match decoded f with
  | inl _ => true
  | inr text =>
      match json_loads E text with
      | inl _ => true
      | inr _ => false
      end
  end.

(** *** [run_agent] and the routes *)

Definition write_report (text : string) : M unit :=
  fun w => (inr tt, {| trace := trace w; report_md := Some text |}).

Definition author_name : string := "Abdullah Sajid".

Definition author_picture_url : string :=
  "https://avatars.githubusercontent.com/u/176460407?v=4".

Definition run_agent : M pyval :=
  start_time <- now_time ;;
  try_except
    (selected <- select_category_and_title ;;
     let (selected_category, title) := selected in
     let topic := title in
     d1 <- now_datetime ;;
     let current_datetime_iso := isoformat d1 ++ "Z" in
     let topic := PyStr.strip topic in
     d2 <- now_datetime ;;
     let current_year := PyStr.of_N (year d2) in
     research_output <- research_topic topic current_year ;;
     image_prompt <- generate_image_prompt topic title research_output ;;
     cover_image_url <- generate_and_upload_image image_prompt title ;;
     blog_content <- write_blog_post topic research_output author_name
                                     author_picture_url cover_image_url
                                     current_datetime_iso ;;
     write_report blog_content ;;;
     now_time ;;;
     result <- git_push_callback ;;
     t <- now_time ;;
     let total_time := PrimFloat.sub t start_time in
     ret (Py.obj [("result", PStr result); ("execution_time", PFloat total_time)]))
    (fun e => raise (Raise (HTTPException 500) (exn_str e))).

(** What the HTTP layer sends back. *)
Record response : Type := { status : Z; body : pyval }.

(** The framework's treatment of a route: the returned value is the body
    of a 200 response; an [HTTPException] becomes a response with its
    status and its detail; anything else is a bare 500. *)
Definition serve (handler : M pyval) : world -> response * world :=
  fun w =>
    match handler w with
    | (inr v, w') => ({| status := 200; body := v |}, w')
    | (inl (Raise (HTTPException code) detail), w') =>
        ({| status := code; body := Py.obj [("detail", PStr detail)] |}, w')
    | (inl _, w') =>
        ({| status := 500; body := PStr "Internal Server Error" |}, w')
    end.

(** [GET /] *)
Definition root : M pyval :=
  ret (Py.obj [("message", PStr "Blog Agent API is running")]).

(** [GET /run-agent] *)
Definition trigger_event : M pyval :=
  run_agent ;;;
  ret (Py.obj [("message", PStr "Agent is running in the background")]).

(** [GET /api/cron] *)
Definition run_cron : M pyval :=
  ret (Py.obj [("message", PStr "Cron job executed successfully")]).

(** *** When everything the pipeline needs goes well *)

(** The post can be published: its frontmatter reads as a mapping, the
    entry can be derived from it, and whatever index is fetched, the entry
    can be appended to it and the result printed. *)
Definition publishable (post : string) : Prop :=
  exists d Y,
    parse_frontmatter (PyStr.strip (PyStr.universal_newlines post)) = inr (PDict d)
    /\ new_entry (PDict d) (Py.get "slug" (PStr "default-slug") d) = inr Y
    /\ forall h, exists j' out,
         PyOps.getitem_append
           (snd (fetched_index (repo_get_contents E h metadata_path))) "metadata" Y
           = inr j'
         /\ json_dumps E j' = inr out.

(** The outside world lets the pipeline through: the token is set, the
    model always answers with text that is not blank, the post it writes can
    be published, and the repository accepts every call.  Nothing is asked
    of the image service or of blob storage. *)
Record cooperative : Prop := {
  coop_token : exists pat, getenv_GIT_TOKEN E = Some pat /\ pat <> "";
  coop_chat : forall h prompt n,
      exists text, chat_completions_create E h prompt n = inr (Some text)
                   /\ PyStr.all_space text = false;
  coop_post : forall h prompt text,
      chat_completions_create E h prompt 600 = inr (Some text) ->
      publishable (PyStr.strip text);
  coop_repo : forall h, github_get_repo E h repo_name = inr tt;
  coop_create : forall h path message content,
      repo_create_file E h path message content = inr tt;
  coop_update : forall h path message content sha,
      repo_update_file E h path message content sha = inr tt
}.

End Agent.

(** The entry of a post that has no frontmatter. *)
Definition default_entry : pyval :=
  Py.obj
    [ ("category", PStr "Uncategorized");
      ("collection", PStr "blogs");
      ("coverImage", PStr "");
      ("description", PStr "");
      ("publishedAt", PStr "");
      ("slug", PStr "default-slug");
      ("status", PStr "draft");
      ("title", PStr "Untitled");
      ("path", PStr "outstatic/content/blogs/default-slug.md");
      ("author", Py.obj [("name", PStr ""); ("picture", PStr "")]);
      ("__outstatic", Py.obj [("path", PStr "outstatic/content/blogs/default-slug.md")]) ].

(** The call that stores the index: an update under the fetched [sha] when
    the fetch went through, a creation otherwise (lines 230-242). *)
Definition store_event (metadata_file : option content_file) (text : string) : event :=
  match metadata_file with
  | Some f => EvUpdateFile metadata_path "Update metadata" text (sha f)
  | None => EvCreateFile metadata_path "Create metadata" text
  end.

(** Only clock readings. *)
Definition only_clock (evs : list event) : bool :=
  forallb (fun ev => match ev with EvTime => true | _ => false end) evs.

(** The characters a URL carries unescaped: letters, digits, [-], [.], [_]
    and [~]. *)
Definition url_safe_char (c : ascii) : bool :=
  let n := PyStr.code c in
  PyStr.between 48 57 n || PyStr.between 65 90 n || PyStr.between 97 122 n
  || (n =? 45)%nat || (n =? 46)%nat || (n =? 95)%nat || (n =? 126)%nat.

Fixpoint url_safe (s : string) : bool :=
  match s with
  | EmptyString => true
  | String c r => url_safe_char c && url_safe r
  end.

(* ===================================================================== *)
(** ** A concrete outside world *)
(* ===================================================================== *)

(** An environment in which every service answers, used to run the program
    on concrete inputs.  The model's reply, as a function of the token budget
    of the call, is a parameter, and so is the remote index. *)
Module Demo.

Definition dq : string := String (ascii_of_nat 34) EmptyString.

Definition quoted (s : string) : string := dq ++ s ++ dq.

(** Characters [json.dumps] writes as they are. *)
Definition plain_char (c : ascii) : bool :=
  let n := PyStr.code c in
  PyStr.between 32 126 n && negb (n =? 34)%nat && negb (n =? 92)%nat.

Fixpoint plain (s : string) : bool :=
  match s with
  | EmptyString => true
  | String c r => plain_char c && plain r
  end.

Fixpoint pad (depth : nat) : string :=
  match depth with
  | O => ""
  | S d => "  " ++ pad d
  end.

Definition enclose (opening closing : string) (depth : nat) (items : list string) : string :=
  match items with
  | [] => opening ++ closing
  | _ => opening ++ nl ++ pad (S depth)
           ++ String.concat ("," ++ nl ++ pad (S depth)) items
           ++ nl ++ pad depth ++ closing
  end.

(** [json.dumps(v, indent=2)] on values built from [None], booleans,
    integers, strings of plain characters, lists and dicts keyed by such
    strings; [None] outside that range. *)
Fixpoint dumps_at (depth : nat) (v : pyval) {struct v} : option string :=
  match v with
  | PNone => Some "null"
  | PBool true => Some "true"
  | PBool false => Some "false"
  | PInt z => Some (PyStr.of_Z z)
  | PStr s => if plain s then Some (quoted s) else None
  | PList l =>
      option_map (enclose "[" "]" depth)
        ((fix items (l : list pyval) : option (list string) :=
            match l with
            | [] => Some []
            | x :: r =>
                match dumps_at (S depth) x, items r with
                | Some a, Some b => Some (a :: b)
                | _, _ => None
                end
            end) l)
  | PDict d =>
      option_map (enclose "{" "}" depth)
        ((fix items (d : list (pyval * pyval)) : option (list string) :=
            match d with
            | [] => Some []
            | (PStr k, x) :: r =>
                match plain k, dumps_at (S depth) x, items r with
                | true, Some a, Some b => Some ((quoted k ++ ": " ++ a) :: b)
                | _, _, _ => None
                end
            | _ :: _ => None
            end) d)
  | PFloat _ | PObj _ _ _ => None
  end.

Definition dumps (v : pyval) : result string :=
  match dumps_at 0 v with
  | Some text => inr text
  | None => inl (Raise TypeError "Object is not JSON serializable")
  end.

(** One entry already in the remote index. *)
Definition old_entry : pyval :=
  Py.obj [("slug", PStr "first-post"); ("title", PStr "First post")].

Definition old_index : pyval := Py.obj [("metadata", PList [old_entry])].

Definition old_index_text : string :=
  match dumps_at 0 old_index with
  | Some text => text
  | None => ""
  end.

(** [json.loads] on the two texts the demonstrations fetch. *)
Definition loads (text : string) : result pyval :=
  if String.eqb text old_index_text then inr old_index
  else if String.eqb text "{}" then inr (PDict [])
  else inl (Raise (LibraryError "JSONDecodeError") "Expecting value: line 1 column 1 (char 0)").

(** [yaml.safe_load] on the frontmatter blocks of the demonstrations. *)
Definition safe_load (text : string) : result pyval :=
  if String.eqb text ("title: 'Hello'" ++ nl ++ "slug: 'my-post'")
  then inr (Py.obj [("title", PStr "Hello"); ("slug", PStr "my-post")])
  else if String.eqb text "slug: 'my post'"
  then inr (Py.obj [("slug", PStr "my post")])
  else if String.eqb text "author: 'Bob'"
  then inr (Py.obj [("author", PStr "Bob")])
  else inl (Raise (LibraryError "YAMLError") "unsupported document").

Definition clock (h : list event) : float :=
  PrimFloat.add 1700000000%float
                (PrimFloat.of_uint63 (Uint63.of_Z (Z.of_nat (length h)))).

Definition make (reply : Z -> string) (remote_index : result content_file) : env :=
  {| time_time := clock;
     datetime_now := fun _ => {| isoformat := "2025-06-01T12:00:00.000000";
                                 year := 2025 |};
     random_choice := fun h => length h;
     getenv_GIT_TOKEN := Some "ghp_token";
     chat_completions_create :=
       fun _ _ max_tokens => inr (Some (reply max_tokens));
     images_generate := fun _ _ => inr (Some "https://images.example/1.png");
     requests_get := fun _ _ => inr [];
     blob_put := fun _ filename _ => inr [("url", "https://blob.example/" ++ filename)];
     github_get_repo := fun _ _ => inr tt;
     repo_create_file := fun _ _ _ _ => inr tt;
     repo_get_contents := fun _ _ => remote_index;
     repo_update_file := fun _ _ _ _ _ => inr tt;
     yaml_safe_load := safe_load;
     json_loads := loads;
     json_dumps := dumps;
     py_repr := fun _ => "" |}.

Definition fence : string := "---".

(** A post with a frontmatter block. *)
Definition post : string :=
  String.concat nl [fence; "title: 'Hello'"; "slug: 'my-post'"; fence; "Body"].

Definition remote : result content_file :=
  inr {| decoded := inr old_index_text; sha := "3b18e5" |}.

(** The model's replies: the post for the post-writing call (the one with
    600 tokens), a title elsewhere. *)
Definition replies (post : string) (max_tokens : Z) : string :=
  if (max_tokens =? 600)%Z then post else " A Title ".

Definition E : env := make (replies post) remote.

(** The model answers every call with white space. *)
Definition mute : env := make (fun _ => "  ") remote.

(** A remote index that cannot be read back as JSON. *)
Definition broken_remote : result content_file :=
  inr {| decoded := inr "<html>Bad gateway</html>"; sha := "77aa01" |}.

Definition E_broken : env := make (replies post) broken_remote.

(** A post whose frontmatter never closes, one without frontmatter, and
    one whose slug has a space in it. *)
Definition open_post : string := "--- Body".

Definition plain_post : string := "Just a body.".

(** Every service answers, and the model's post is [open_post]. *)
Definition E_open : env := make (replies open_post) remote.

Definition spaced_post : string :=
  String.concat nl [fence; "slug: 'my post'"; fence; "Body"].

(** The frontmatter of [post] as a mapping, the entry derived from it,
    and the texts of the index with it. *)
Definition frontmatter : pyval :=
  Py.obj [("title", PStr "Hello"); ("slug", PStr "my-post")].

Definition my_entry : pyval :=
  match new_entry E frontmatter (PStr "my-post") with
  | inr entry => entry
  | inl _ => PNone
  end.

Definition text_of (index : pyval) : string :=
  match dumps_at 0 index with
  | Some text => text
  | None => ""
  end.

Definition start : world := {| trace := []; report_md := None |}.

(** The world once a report has been written. *)
Definition written (text : string) : world :=
  {| trace := []; report_md := Some text |}.

End Demo.

(* ===================================================================== *)
(** ** Start-up *)
(* ===================================================================== *)

(** The variables lines 20-23 ask for, in the order of the loop. *)
Definition required_vars : list string :=
  [ "OPENAI_API_KEY"; "GIT_TOKEN"; "BLOB_READ_WRITE_TOKEN" ].

(** [os.getenv(var)] is truthy: the variable is set, and not to the empty
    string. *)
Definition is_set (getenv : string -> option string) (var : string) : bool :=
  match getenv var with
  | Some (String _ _) => true
  | _ => false
  end.

(** The loop of lines 20-23 over a list of names: the first variable that
    is not set stops the module with a [ValueError]. *)
Fixpoint check_vars (getenv : string -> option string) (vars : list string)
  : result unit :=
  match vars with
  | [] => inr tt
  | var :: rest =>
      if is_set getenv var then check_vars getenv rest
      else inl (Raise ValueError (var ++ " not set"))
  end.

Definition check_environment (getenv : string -> option string) : result unit :=
  check_vars getenv required_vars.

(* ===================================================================== *)
(** ** Characters of a storage key and of a report *)
(* ===================================================================== *)

(** Every character of [s] satisfies [p]. *)
Fixpoint all_chars (p : ascii -> bool) (s : string) : bool :=
  match s with
  | EmptyString => true
  | String c r => p c && all_chars p r
  end.

(** Neither a space nor one of [A]..[Z]. *)
Definition key_char (c : ascii) : bool :=
  negb (Ascii.eqb c " ") && negb (PyStr.between 65 90 (PyStr.code c)).

(** The carriage return. *)
Definition CR : ascii := ascii_of_nat 13.

Definition not_CR (c : ascii) : bool := negb (Ascii.eqb c CR).

(* ===================================================================== *)
(** ** Outside worlds in which something fails *)
(* ===================================================================== *)

Module Edge.

(** [yaml.safe_load] on two more blocks: the empty one and a plain
    sentence. *)
Definition load (text : string) : result pyval :=
  if String.eqb text "" then inr PNone
  else if String.eqb text "just a sentence" then inr (PStr "just a sentence")
  else Demo.safe_load text.

(** Like [Demo.make], with the model, the loader and the answers to
    [create_file] and [update_file] as parameters. *)
Definition make (chat : Z -> result (option string))
                (loader : string -> result pyval)
                (create update : result unit)
                (remote_index : result content_file) : env :=
  {| time_time := Demo.clock;
     datetime_now := fun _ => {| isoformat := "2025-06-01T12:00:00.000000";
                                 year := 2025 |};
     random_choice := fun h => length h;
     getenv_GIT_TOKEN := Some "ghp_token";
     chat_completions_create := fun _ _ max_tokens => chat max_tokens;
     images_generate := fun _ _ => inr (Some "https://images.example/1.png");
     requests_get := fun _ _ => inr [];
     blob_put := fun _ filename _ => inr [("url", "https://blob.example/" ++ filename)];
     github_get_repo := fun _ _ => inr tt;
     repo_create_file := fun _ _ _ _ => create;
     repo_get_contents := fun _ _ => remote_index;
     repo_update_file := fun _ _ _ _ _ => update;
     yaml_safe_load := loader;
     json_loads := Demo.loads;
     json_dumps := Demo.dumps;
     py_repr := fun _ => "" |}.

Definition answers (max_tokens : Z) : result (option string) :=
  inr (Some (Demo.replies Demo.post max_tokens)).

(** The repository refuses to create a file. *)
Definition refusal : exn :=
  Raise (LibraryError "GithubException") "422 Invalid request: sha was not supplied".

Definition refusing : env := make answers load (inl refusal) (inr tt) Demo.remote.

(** The repository refuses to update a file. *)
Definition conflict : exn :=
  Raise (LibraryError "GithubException") "409 metadata.json does not match the sha".

Definition stale : env := make answers load (inr tt) (inl conflict) Demo.remote.

(** Every call goes through; the loader knows the two extra blocks. *)
Definition E : env := make answers load (inr tt) (inr tt) Demo.remote.

(** The model cannot be reached. *)
Definition unreachable : exn :=
  Raise (LibraryError "APIConnectionError") "Connection error.".

Definition silent : env :=
  make (fun _ => inl unreachable) load (inr tt) (inr tt) Demo.remote.

(** There is no index yet, and an index that is the empty object. *)
Definition not_found : exn :=
  Raise (LibraryError "UnknownObjectException") "404 Not Found".

Definition first_run : env := Demo.make (Demo.replies Demo.post) (inl not_found).

Definition bare_index : content_file := {| decoded := inr "{}"; sha := "0c1d2e" |}.

Definition bare : env := Demo.make (Demo.replies Demo.post) (inr bare_index).

(** Reports: a frontmatter that is a sentence, an empty frontmatter, a post
    with a rule in its body, and a text with carriage returns. *)
Definition sentence_post : string :=
  String.concat nl [Demo.fence; "just a sentence"; Demo.fence; "Body"].

Definition empty_block_post : string :=
  String.concat nl [Demo.fence; Demo.fence; "Body"].

Definition ruled_post : string :=
  String.concat nl [Demo.fence; "slug: 'my post'"; Demo.fence; "Body"; Demo.fence; "More"].

Definition cr : string := String CR EmptyString.

(** The superscript two (code point 178), and a year written with it. *)
Definition superscript_two : ascii := ascii_of_nat 178.

Definition superscript_year : string := "20" ++ String superscript_two "5".

Definition dos_text : string := "Line one" ++ cr ++ nl ++ "Line two" ++ cr.

(** The entries of [Demo.post] and of [Demo.spaced_post], written out. *)
Definition hello_entry : pyval :=
  Py.obj
    [ ("category", PStr "Uncategorized");
      ("collection", PStr "blogs");
      ("coverImage", PStr "");
      ("description", PStr "");
      ("publishedAt", PStr "");
      ("slug", PStr "my-post");
      ("status", PStr "draft");
      ("title", PStr "Hello");
      ("path", PStr "outstatic/content/blogs/my-post.md");
      ("author", Py.obj [("name", PStr ""); ("picture", PStr "")]);
      ("__outstatic", Py.obj [("path", PStr "outstatic/content/blogs/my-post.md")]) ].

Definition spaced_entry : pyval :=
  Py.obj
    [ ("category", PStr "Uncategorized");
      ("collection", PStr "blogs");
      ("coverImage", PStr "");
      ("description", PStr "");
      ("publishedAt", PStr "");
      ("slug", PStr "my post");
      ("status", PStr "draft");
      ("title", PStr "Untitled");
      ("path", PStr "outstatic/content/blogs/my post.md");
      ("author", Py.obj [("name", PStr ""); ("picture", PStr "")]);
      ("__outstatic", Py.obj [("path", PStr "outstatic/content/blogs/my post.md")]) ].

(** An index object with a key besides [metadata]. *)
Definition versioned_index : Py.dict :=
  [ (PStr "version", PInt 2); (PStr "metadata", PList [Demo.old_entry]) ].

End Edge.

(* ===================================================================== *)
(** ** Running a computation by hand *)
(* ===================================================================== *)

(** Unfolds the plumbing of [M] and reduces what the world's history has
    become; the calls to the outside stay as they are. *)
Ltac run :=
  cbv [bind try_except call call_result lift ret raise rbind
       now_time now_datetime chat content_strip read_report write_report];
  cbn [trace report_md log_event fst snd].

(** Rewrites the outcome under scrutiny with an equation that holds of it
    up to computation. *)
Ltac settle Hr :=
  match goal with
  | |- match fst ?X with _ => _ end =>
      match type of Hr with
      | _ = ?rhs =>
          let H := fresh in
          assert (H : fst X = rhs) by exact Hr; rewrite H; clear H
      end
  end.

(** Case analysis on every result, option and pair a computation
    branches on. *)
Ltac split_run :=
  repeat (run;
          match goal with
          | |- context [match ?x with _ => _ end] =>
              match type of x with
              | result _ => destruct x
              | option _ => destruct x
              | (_ * _)%type => destruct x
              | unit => destruct x
              | string => destruct x
              end
          end).

(** [publisher_reads] in a concrete world whose token is set. *)
Ltac reads :=
  split;
  [ exists "ghp_token"; split; [reflexivity|discriminate]
  | split; [reflexivity|eexists; split; reflexivity] ].

(* ===================================================================== *)
(** ** Facts about strings *)
(* ===================================================================== *)

Module PyStrFacts.
Import PyStr.

Lemma lstrip_blank s : all_space s = true -> lstrip s = "".
Proof.
  induction s as [|c r IH]; simpl; [reflexivity|].
  intros H. apply andb_true_iff in H as [Hc Hr].
  rewrite Hc. auto.
Qed.

Lemma lstrip_head s c r : lstrip s = String c r -> isspace c = false.
Proof.
  induction s as [|d t IH]; simpl; [discriminate|].
  destruct (isspace d) eqn:Hd; [exact IH|].
  intros H. injection H as -> _. exact Hd.
Qed.

Lemma lstrip_not_blank s : all_space s = false -> lstrip s <> "".
Proof.
  induction s as [|c r IH]; simpl; [discriminate|].
  destruct (isspace c); simpl; [exact IH|discriminate].
Qed.

Lemma rstrip_head c r : isspace c = false -> exists r', rstrip (String c r) = String c r'.
Proof.
  intros Hc. simpl. rewrite Hc. destruct (rstrip r); eauto.
Qed.

(** [s.strip()] is empty exactly when [s] is blank. *)
Lemma strip_empty_iff s : strip s = "" <-> all_space s = true.
Proof.
  unfold strip. split.
  - intros H. destruct (all_space s) eqn:Hs; [reflexivity|].
    destruct (lstrip s) as [|c r] eqn:Hl.
    + exfalso. exact (lstrip_not_blank _ Hs Hl).
    + destruct (@rstrip_head c r (lstrip_head _ Hl)) as [r' Hr'].
      rewrite Hr' in H. discriminate.
  - intros H. rewrite (lstrip_blank _ H). reflexivity.
Qed.

Lemma is_empty_strip s : is_empty (strip s) = all_space s.
Proof.
  unfold is_empty. destruct (all_space s) eqn:Hs.
  - apply strip_empty_iff in Hs. rewrite Hs. reflexivity.
  - apply String.eqb_neq. intros H. apply strip_empty_iff in H. congruence.
Qed.

(** A string with a character that is no digit is not [isdigit]. *)
Lemma all_digits_mem s c :
  mem c s = true -> isdigit_char c = false -> all_digits s = false.
Proof.
  induction s as [|d r IH]; simpl; [discriminate|].
  intros Hm Hc. apply orb_true_iff in Hm as [Hd|Hr].
  - apply Ascii.eqb_eq in Hd. subst d. rewrite Hc. reflexivity.
  - rewrite (IH Hr Hc). apply andb_false_r.
Qed.

Lemma isdigit_mem s c :
  mem c s = true -> isdigit_char c = false -> isdigit s = false.
Proof.
  intros Hm Hc. destruct s; [reflexivity|].
  exact (all_digits_mem _ _ Hm Hc).
Qed.

(** *** Searching *)

Lemma find_eq sub s :
  find sub s =
    if String.prefix sub s then Some O
    else match s with
         | EmptyString => None
         | String _ r => option_map S (find sub r)
         end.
Proof. destruct s; reflexivity. Qed.

Lemma drop_substring k : forall s n m,
  k <= String.length s ->
  String.substring n m (drop k s) = String.substring (k + n) m s.
Proof.
  induction k as [|k IH]; intros s n m Hk; [reflexivity|].
  destruct s as [|c r]; simpl in Hk; [lia|].
  simpl. apply IH. lia.
Qed.

(** Where [find] stops, [sub] stands. *)
Lemma find_some sub : forall s i,
  find sub s = Some i -> String.substring i (String.length sub) s = sub.
Proof.
  induction s as [|c r IH]; intros i; rewrite find_eq.
  - destruct (String.prefix sub "") eqn:Hp; [|discriminate].
    intros H. injection H as <-. apply String.prefix_correct. exact Hp.
  - destruct (String.prefix sub (String c r)) eqn:Hp.
    + intros H. injection H as <-. apply String.prefix_correct. exact Hp.
    + destruct (find sub r) as [j|] eqn:Hf; simpl; [|discriminate].
      intros H. injection H as <-. simpl. apply IH. reflexivity.
Qed.

Lemma find_from_some sub s start j :
  find_from sub s start = Some j ->
  start <= j /\ String.substring j (String.length sub) s = sub.
Proof.
  unfold find_from. destruct (start <=? String.length s)%nat eqn:Hle; [|discriminate].
  apply Nat.leb_le in Hle.
  destruct (find sub (drop start s)) as [i|] eqn:Hf; simpl; [|discriminate].
  intros H. injection H as <-. split; [lia|].
  rewrite <- (drop_substring _ _ _ Hle). apply find_some. exact Hf.
Qed.

(** No occurrence from [start] on: the search fails. *)
Lemma find_from_absent sub s start :
  (forall j, start <= j -> slice s j (j + String.length sub) <> sub) ->
  find_from sub s start = None.
Proof.
  intros H. destruct (find_from sub s start) as [j|] eqn:Hf; [|reflexivity].
  apply find_from_some in Hf as [Hj Hs]. exfalso. apply (H j Hj).
  unfold slice. replace (j + String.length sub - j) with (String.length sub) by lia.
  exact Hs.
Qed.

(** *** Stripping twice, and the digits of a number *)

Lemma strip_not_blank s : all_space s = false -> all_space (strip s) = false.
Proof.
  intros Hs. unfold strip.
  destruct (lstrip s) as [|c r] eqn:Hl.
  - exfalso. exact (lstrip_not_blank _ Hs Hl).
  - pose proof (lstrip_head _ Hl) as Hc.
    destruct (@rstrip_head c r Hc) as [r' Hr'].
    rewrite Hr'. simpl. rewrite Hc. reflexivity.
Qed.

Lemma all_digits_of_uint d : all_digits (NilEmpty.string_of_uint d) = true.
Proof. induction d; simpl; auto. Qed.

Lemma isdigit_of_N n : isdigit (of_N n) = true.
Proof.
  unfold of_N, NilZero.string_of_uint.
  destruct (N.to_uint n) as [|d|d|d|d|d|d|d|d|d|d] eqn:Hd; try reflexivity;
    rewrite <- Hd at 1;
    (replace (isdigit (NilEmpty.string_of_uint (N.to_uint n)))
       with (all_digits (NilEmpty.string_of_uint (N.to_uint n)))
       by (rewrite Hd; reflexivity));
    apply all_digits_of_uint.
Qed.

End PyStrFacts.

(* ===================================================================== *)
(** ** Facts about computations *)
(* ===================================================================== *)

Lemma bind_ext A B (m : M A) (k k' : A -> M B) w :
  (forall a w', k a w' = k' a w') -> bind m k w = bind m k' w.
Proof.
  intros H. unfold bind. destruct (m w) as [[e|a] w']; [reflexivity|apply H].
Qed.

(* ===================================================================== *)
(** ** Input validation of the Researcher *)
(* ===================================================================== *)

Section Research.

Variable E : env.

Lemma topic_guard topic :
  is_empty topic || is_empty (PyStr.strip topic) = PyStr.all_space topic.
Proof.
  rewrite PyStrFacts.is_empty_strip.
  destruct topic as [|c r]; [reflexivity|].
  reflexivity.
Qed.

(** A year string passes line 32 exactly when [isdigit] holds of it. *)
Lemma research_topic_checks topic current_year w :
  PyStr.all_space topic = false ->
  PyStr.isdigit current_year = false ->
  research_topic E topic current_year w =
    (inl (Raise ValueError "Current year must be a number"), w).
Proof.
  intros Ht Hy. unfold research_topic.
  rewrite topic_guard, Ht, Hy. reflexivity.
Qed.

(** X21. A topic that is empty or all white space, and a year string with
    a character that [str.isdigit] does not accept, each make
    [research_topic] raise a [ValueError] (the input error, where a failed
    call raises a [RuntimeError]) and leave the world as it was: no call has
    been made, to the model or to anything else. *)
Theorem research_topic_rejects_bad_input topic current_year w :
  PyStr.all_space topic = true
  \/ (exists c, PyStr.mem c current_year = true /\ PyStr.isdigit_char c = false) ->
  research_topic E topic current_year w =
    (inl (Raise ValueError
            (if PyStr.all_space topic
             then "Topic cannot be empty"
             else "Current year must be a number")), w).
Proof.
  intros H. destruct (PyStr.all_space topic) eqn:Ht.
  - unfold research_topic. rewrite topic_guard, Ht. reflexivity.
  - destruct H as [H|[c [Hm Hc]]]; [discriminate|].
    apply research_topic_checks; [exact Ht|].
    exact (PyStrFacts.isdigit_mem _ _ Hm Hc).
Qed.

End Research.

Lemma research_topic_rejects_bad_input_witness :
  (research_topic Demo.E "   " "2025" Demo.start =
     (inl (Raise ValueError "Topic cannot be empty"), Demo.start))
  /\ (research_topic Demo.E "Rust in 2025" "20x5" Demo.start =
        (inl (Raise ValueError "Current year must be a number"), Demo.start)).
Proof.
  split.
  - apply (research_topic_rejects_bad_input Demo.E "   " "2025" Demo.start).
    left. reflexivity.
  - apply (research_topic_rejects_bad_input Demo.E "Rust in 2025" "20x5" Demo.start).
    right. exists "x"%char. split; reflexivity.
Defined.

(** C3, where the code falls short of it.  The year [20] superscript-two
    [5] has a character that is none of [0]..[9], yet line 32 lets it
    through, because [str.isdigit] holds of superscript digits:
    [research_topic] raises no [ValueError], calls the model and returns its
    text. *)
Lemma research_topic_accepts_superscript_year :
  PyStr.mem Edge.superscript_two Edge.superscript_year = true
  /\ PyStr.between 48 57 (PyStr.code Edge.superscript_two) = false
  /\ PyStr.isdigit Edge.superscript_year = true
  /\ research_topic Demo.E "Rust in 2025" Edge.superscript_year Demo.start =
       (inr "A Title",
        {| trace := [ EvTime;
                      EvChat "gpt-4o-mini"
                             (research_prompt "Rust in 2025" Edge.superscript_year)
                             300;
                      EvTime ];
           report_md := None |}).
Proof. repeat split. Qed.

(* ===================================================================== *)
(** ** The text stages on an empty reply *)
(* ===================================================================== *)

Section TextStages.

Variable E : env.

(** The shape the four stages share: call the model, strip, refuse an
    empty text.  On a blank reply the handler gets the [ValueError]. *)
Lemma blank_reply_raises A prompt max_tokens msg (k : string -> M A)
      (h : exn -> M A) w text :
  chat_completions_create E (trace w) prompt max_tokens = inr (Some text) ->
  PyStr.all_space text = true ->
  try_except
    (response <- chat E prompt max_tokens ;;
     content <- content_strip response ;;
     if is_empty content then raise (Raise ValueError msg) else k content)
    h w
  = h (Raise ValueError msg) (log_event (EvChat "gpt-4o-mini" prompt max_tokens) w).
Proof.
  intros Hc Hb.
  unfold try_except, bind, chat, call_result. rewrite Hc.
  unfold content_strip, ret. rewrite PyStrFacts.is_empty_strip, Hb.
  reflexivity.
Qed.

Lemma select_category_and_title_blank w text :
  chat_completions_create E (trace w ++ [EvRandom; EvTime])
                          (title_prompt (drawn E w)) 50 = inr (Some text) ->
  PyStr.all_space text = true ->
  fst (select_category_and_title E w) =
    inl (Raise RuntimeError "Title generation failed: Empty title response").
Proof.
  intros Hc Hb. unfold select_category_and_title.
  unfold bind at 1. unfold choice, bind at 1, call, ret.
  unfold bind at 1. unfold now_time at 1, call.
  rewrite (@blank_reply_raises _ _ _ _ _ _ _ text).
  - reflexivity.
  - cbn [trace log_event]. rewrite <- app_assoc. exact Hc.
  - exact Hb.
Qed.

Lemma research_topic_blank topic current_year w text :
  PyStr.all_space topic = false ->
  PyStr.isdigit current_year = true ->
  chat_completions_create E (trace w ++ [EvTime])
                          (research_prompt topic current_year) 300 = inr (Some text) ->
  PyStr.all_space text = true ->
  fst (research_topic E topic current_year w) =
    inl (Raise RuntimeError "Research failed: Empty OpenAI response").
Proof.
  intros Ht Hy Hc Hb. unfold research_topic.
  rewrite topic_guard, Ht, Hy. cbn [negb].
  unfold bind at 1. unfold now_time at 1, call.
  rewrite (@blank_reply_raises _ _ _ _ _ _ _ text); [reflexivity|exact Hc|exact Hb].
Qed.

Lemma generate_image_prompt_blank topic title research_output w text :
  chat_completions_create E (trace w ++ [EvTime])
    (image_prompt_prompt topic title research_output) 50 = inr (Some text) ->
  PyStr.all_space text = true ->
  fst (generate_image_prompt E topic title research_output w) =
    inl (Raise RuntimeError
           "Image prompt generation failed: Empty image prompt response").
Proof.
  intros Hc Hb. unfold generate_image_prompt.
  unfold bind at 1. unfold now_time at 1, call.
  rewrite (@blank_reply_raises _ _ _ _ _ _ _ text); [reflexivity|exact Hc|exact Hb].
Qed.

Lemma write_blog_post_blank topic research_output name picture cover date w text :
  chat_completions_create E (trace w ++ [EvTime])
    (blog_prompt topic research_output name picture cover date) 600
    = inr (Some text) ->
  PyStr.all_space text = true ->
  fst (write_blog_post E topic research_output name picture cover date w) =
    inl (Raise RuntimeError "Blog post failed: Empty OpenAI response").
Proof.
  intros Hc Hb. unfold write_blog_post.
  unfold bind at 1. unfold now_time at 1, call.
  rewrite (@blank_reply_raises _ _ _ _ _ _ _ text); [reflexivity|exact Hc|exact Hb].
Qed.

(** C8. In each of the four text stages, when the model's reply is empty
    once stripped, the stage raises its stage failure (a [RuntimeError]
    that carries the stage's name) and returns nothing.  For the
    Researcher the inputs are taken to pass its own validation. *)
Theorem text_stage_fails_on_empty_reply w text :
  PyStr.strip text = "" ->
  (chat_completions_create E (trace w ++ [EvRandom; EvTime])
                           (title_prompt (drawn E w)) 50 = inr (Some text) ->
   fst (select_category_and_title E w) =
     inl (Raise RuntimeError "Title generation failed: Empty title response"))
  /\ (forall topic current_year,
        PyStr.all_space topic = false ->
        PyStr.isdigit current_year = true ->
        chat_completions_create E (trace w ++ [EvTime])
          (research_prompt topic current_year) 300 = inr (Some text) ->
        fst (research_topic E topic current_year w) =
          inl (Raise RuntimeError "Research failed: Empty OpenAI response"))
  /\ (forall topic title research_output,
        chat_completions_create E (trace w ++ [EvTime])
          (image_prompt_prompt topic title research_output) 50 = inr (Some text) ->
        fst (generate_image_prompt E topic title research_output w) =
          inl (Raise RuntimeError
                 "Image prompt generation failed: Empty image prompt response"))
  /\ (forall topic research_output name picture cover date,
        chat_completions_create E (trace w ++ [EvTime])
          (blog_prompt topic research_output name picture cover date) 600
          = inr (Some text) ->
        fst (write_blog_post E topic research_output name picture cover date w) =
          inl (Raise RuntimeError "Blog post failed: Empty OpenAI response")).
Proof.
  intros Hs. apply PyStrFacts.strip_empty_iff in Hs.
  repeat split; intros.
  - eapply select_category_and_title_blank; eauto.
  - eapply research_topic_blank; eauto.
  - eapply generate_image_prompt_blank; eauto.
  - eapply write_blog_post_blank; eauto.
Qed.

End TextStages.

Lemma text_stage_fails_on_empty_reply_witness :
  fst (select_category_and_title Demo.mute Demo.start) =
    inl (Raise RuntimeError "Title generation failed: Empty title response")
  /\ fst (research_topic Demo.mute "Rust" "2025" Demo.start) =
       inl (Raise RuntimeError "Research failed: Empty OpenAI response")
  /\ fst (generate_image_prompt Demo.mute "Rust" "A Title" "notes" Demo.start) =
       inl (Raise RuntimeError
              "Image prompt generation failed: Empty image prompt response")
  /\ fst (write_blog_post Demo.mute "Rust" "notes" "Ann" "a.png" "c.png" "2025"
                          Demo.start) =
       inl (Raise RuntimeError "Blog post failed: Empty OpenAI response").
Proof.
  destruct (@text_stage_fails_on_empty_reply Demo.mute Demo.start "  " eq_refl)
    as (H1 & H2 & H3 & H4).
  split; [|split; [|split]].
  - apply H1. reflexivity.
  - apply H2; reflexivity.
  - apply H3. reflexivity.
  - apply H4. reflexivity.
Defined.

(* ===================================================================== *)
(** ** The Image Producer *)
(* ===================================================================== *)

Section ImageProducer.

Variable E : env.

(** The events of a run of the Image Producer in which every step is
    taken. *)
Lemma image_success image_prompt title w image_url image_data seconds fields blob_url :
  images_generate E (trace w ++ [EvTime]) image_prompt = inr (Some image_url) ->
  requests_get E
    (trace w ++ [EvTime; EvImage "dall-e-3" image_prompt "1024x1024" "standard" 1])
    image_url = inr image_data ->
  PyOps.int_of_float
    (time_time E
       (trace w ++ [EvTime; EvImage "dall-e-3" image_prompt "1024x1024" "standard" 1;
                    EvHttpGet image_url 10])) = inr seconds ->
  blob_put E
    (trace w ++ [EvTime; EvImage "dall-e-3" image_prompt "1024x1024" "standard" 1;
                 EvHttpGet image_url 10; EvTime])
    (blob_filename title seconds) image_data = inr fields ->
  field "url" fields = inr blob_url ->
  generate_and_upload_image E image_prompt title w =
    (inr blob_url,
     {| trace := trace w ++
                 [EvTime; EvImage "dall-e-3" image_prompt "1024x1024" "standard" 1;
                  EvHttpGet image_url 10; EvTime;
                  EvPut (blob_filename title seconds) image_data "public" "image/png";
                  EvTime];
        report_md := report_md w |}).
Proof.
  intros Hgen Hget Hint Hput Hurl.
  unfold generate_and_upload_image. run. rewrite Hgen. run.
  rewrite <- ?app_assoc. cbn [app]. rewrite Hget. run.
  rewrite <- ?app_assoc. cbn [app]. rewrite Hint. run.
  rewrite <- ?app_assoc. cbn [app]. rewrite Hput. run. rewrite Hurl. run.
  unfold log_event. cbn [trace report_md]. rewrite <- ?app_assoc. reflexivity.
Qed.

(** C2. Whatever the prompt, the title and the outside world do,
    [generate_and_upload_image] returns a string and raises nothing.  When
    the image is generated, downloaded and uploaded, and the answer to the
    upload has a [url], the string is that [url], and the calls made are
    those three, the upload under the name built from the title and the
    clock.  In every other case it is the placeholder literal: whenever the
    string returned is not the placeholder, all of these steps went
    through in this very call. *)
Theorem generate_and_upload_image_returns_url image_prompt title w :
  (forall image_url image_data seconds fields blob_url,
      images_generate E (trace w ++ [EvTime]) image_prompt = inr (Some image_url) ->
      requests_get E
        (trace w ++ [EvTime; EvImage "dall-e-3" image_prompt "1024x1024" "standard" 1])
        image_url = inr image_data ->
      PyOps.int_of_float
        (time_time E
           (trace w ++ [EvTime;
                        EvImage "dall-e-3" image_prompt "1024x1024" "standard" 1;
                        EvHttpGet image_url 10])) = inr seconds ->
      blob_put E
        (trace w ++ [EvTime; EvImage "dall-e-3" image_prompt "1024x1024" "standard" 1;
                     EvHttpGet image_url 10; EvTime])
        (blob_filename title seconds) image_data = inr fields ->
      field "url" fields = inr blob_url ->
      generate_and_upload_image E image_prompt title w =
        (inr blob_url,
         {| trace := trace w ++
                     [EvTime;
                      EvImage "dall-e-3" image_prompt "1024x1024" "standard" 1;
                      EvHttpGet image_url 10; EvTime;
                      EvPut (blob_filename title seconds) image_data
                            "public" "image/png";
                      EvTime];
            report_md := report_md w |}))
  /\ exists url,
       fst (generate_and_upload_image E image_prompt title w) = inr url
       /\ (url = placeholder_url
           \/ exists image_url image_data seconds fields,
                images_generate E (trace w ++ [EvTime]) image_prompt
                  = inr (Some image_url)
                /\ requests_get E
                     (trace w ++ [EvTime;
                                  EvImage "dall-e-3" image_prompt "1024x1024"
                                          "standard" 1])
                     image_url = inr image_data
                /\ PyOps.int_of_float
                     (time_time E
                        (trace w ++ [EvTime;
                                     EvImage "dall-e-3" image_prompt "1024x1024"
                                             "standard" 1;
                                     EvHttpGet image_url 10])) = inr seconds
                /\ blob_put E
                     (trace w ++ [EvTime;
                                  EvImage "dall-e-3" image_prompt "1024x1024"
                                          "standard" 1;
                                  EvHttpGet image_url 10; EvTime])
                     (blob_filename title seconds) image_data = inr fields
                /\ field "url" fields = inr url).
Proof.
  split; [intros; eapply image_success; eassumption|].
  destruct (images_generate E (trace w ++ [EvTime]) image_prompt)
    as [e|[image_url|]] eqn:Hgen;
    try (exists placeholder_url; split; [|left; reflexivity];
         unfold generate_and_upload_image; run; rewrite Hgen; reflexivity).
  destruct (requests_get E
              (trace w ++ [EvTime;
                           EvImage "dall-e-3" image_prompt "1024x1024" "standard" 1])
              image_url) as [e|image_data] eqn:Hget.
  { exists placeholder_url. split; [|left; reflexivity].
    unfold generate_and_upload_image. run. rewrite Hgen. run.
    rewrite <- ?app_assoc. cbn [app]. rewrite Hget. reflexivity. }
  destruct (PyOps.int_of_float
              (time_time E
                 (trace w ++ [EvTime;
                              EvImage "dall-e-3" image_prompt "1024x1024" "standard" 1;
                              EvHttpGet image_url 10]))) as [e|seconds] eqn:Hint.
  { exists placeholder_url. split; [|left; reflexivity].
    unfold generate_and_upload_image. run. rewrite Hgen. run.
    rewrite <- ?app_assoc. cbn [app]. rewrite Hget. run.
    rewrite <- ?app_assoc. cbn [app]. rewrite Hint. reflexivity. }
  destruct (blob_put E
              (trace w ++ [EvTime;
                           EvImage "dall-e-3" image_prompt "1024x1024" "standard" 1;
                           EvHttpGet image_url 10; EvTime])
              (blob_filename title seconds) image_data) as [e|fields] eqn:Hput.
  { exists placeholder_url. split; [|left; reflexivity].
    unfold generate_and_upload_image. run. rewrite Hgen. run.
    rewrite <- ?app_assoc. cbn [app]. rewrite Hget. run.
    rewrite <- ?app_assoc. cbn [app]. rewrite Hint. run.
    rewrite <- ?app_assoc. cbn [app]. rewrite Hput. reflexivity. }
  destruct (field "url" fields) as [e|blob_url] eqn:Hurl.
  { exists placeholder_url. split; [|left; reflexivity].
    unfold generate_and_upload_image. run. rewrite Hgen. run.
    rewrite <- ?app_assoc. cbn [app]. rewrite Hget. run.
    rewrite <- ?app_assoc. cbn [app]. rewrite Hint. run.
    rewrite <- ?app_assoc. cbn [app]. rewrite Hput. run. rewrite Hurl. reflexivity. }
  exists blob_url. split.
  - rewrite (@image_success image_prompt title w _ _ _ _ _ Hgen Hget Hint Hput Hurl).
    reflexivity.
  - right. exists image_url, image_data, seconds, fields. auto.
Qed.

End ImageProducer.

Lemma generate_and_upload_image_returns_url_witness :
  generate_and_upload_image Demo.E "a skyline at dawn" "Rust In Orbit" Demo.start =
    (inr "https://blob.example/images/rust-in-orbit-1700000003.png",
     {| trace := [ EvTime;
                   EvImage "dall-e-3" "a skyline at dawn" "1024x1024" "standard" 1;
                   EvHttpGet "https://images.example/1.png" 10; EvTime;
                   EvPut "images/rust-in-orbit-1700000003.png" [] "public" "image/png";
                   EvTime ];
        report_md := None |}).
Proof.
  destruct (generate_and_upload_image_returns_url Demo.E "a skyline at dawn"
              "Rust In Orbit" Demo.start) as [Hsuccess _].
  apply (Hsuccess "https://images.example/1.png" [] 1700000003%Z
           [("url", "https://blob.example/images/rust-in-orbit-1700000003.png")]);
    reflexivity.
Defined.

(* ===================================================================== *)
(** ** The Publisher *)
(* ===================================================================== *)

Section Publisher.

Variable E : env.

(** Lines 167-182 *)
Lemma git_push_callback_reads w content :
  publisher_reads E w content ->
  git_push_callback E w = publish E content (at_report w).
Proof.
  intros [[pat [Hp Hne]] [Hrepo [text [Hr ->]]]].
  unfold git_push_callback. run. rewrite Hp.
  destruct pat as [|c pat]; [congruence|].
  run. rewrite Hrepo. run. rewrite Hr. reflexivity.
Qed.

Lemma fetch_index_eq w :
  fetch_index E w =
    (inr (fetched_index E (repo_get_contents E (trace w) metadata_path)),
     log_event (EvGetContents metadata_path) w).
Proof.
  unfold fetch_index, fetched_index. run.
  destruct (repo_get_contents E (trace w) metadata_path) as [e|f]; [reflexivity|].
  destruct (decoded f) as [e|text]; [reflexivity|].
  destruct (json_loads E text); reflexivity.
Qed.

Lemma store_index_trace metadata_file metadata_json w :
  exists rest,
    trace (snd (store_index E metadata_file metadata_json w)) = (trace w ++ rest)%list
    /\ forallb index_event rest = true.
Proof.
  unfold store_index. run.
  destruct (json_dumps E metadata_json) as [e|text].
  - exists []. rewrite app_nil_r. split; reflexivity.
  - destruct metadata_file as [f|].
    + destruct (repo_update_file E (trace w) metadata_path "Update metadata" text (sha f));
        (eexists; split; [reflexivity|reflexivity]).
    + destruct (repo_create_file E (trace w) metadata_path "Create metadata" text);
        (eexists; split; [reflexivity|reflexivity]).
Qed.

(** Lines 202-248 only read and write the index. *)
Lemma update_index_trace metadata slug w :
  exists rest,
    trace (snd (update_index E metadata slug w)) = (trace w ++ rest)%list
    /\ forallb index_event rest = true.
Proof.
  unfold update_index. unfold bind at 1. rewrite fetch_index_eq.
  destruct (fetched_index E _) as [metadata_file metadata_json].
  unfold bind at 1, lift.
  destruct (new_entry E metadata slug) as [e|entry].
  { eexists. split; [reflexivity|reflexivity]. }
  unfold extend_index. unfold bind at 1, lift.
  destruct (PyOps.getitem_append metadata_json "metadata" entry) as [e|j].
  { eexists. split; [reflexivity|reflexivity]. }
  unfold bind at 1.
  destruct (store_index_trace metadata_file j
              (log_event (EvGetContents metadata_path) w)) as [rest [Ht Hr]].
  destruct (store_index E metadata_file j _) as [[e|[]] w'] eqn:Hs;
    cbn [snd] in Ht; run; rewrite Ht; cbn [trace log_event].
  - exists (EvGetContents metadata_path :: rest).
    rewrite <- app_assoc. split; [reflexivity|exact Hr].
  - exists (EvGetContents metadata_path :: rest ++ [EvTime])%list.
    rewrite <- !app_assoc. split; [reflexivity|].
    cbn [forallb index_event]. rewrite String.eqb_refl, forallb_app, Hr. reflexivity.
Qed.

Lemma push_post_eq new_filename content w :
  push_post E new_filename content w =
    (match repo_create_file E (trace w) (blogs_dir ++ new_filename)
                            ("Add " ++ new_filename) content with
     | inl e => inl (Raise RuntimeError ("Push failed: " ++ exn_str e))
     | inr u => inr u
     end,
     log_event (EvCreateFile (blogs_dir ++ new_filename) ("Add " ++ new_filename) content) w).
Proof.
  unfold push_post. run.
  destruct (repo_create_file E (trace w) _ _ content); reflexivity.
Qed.

(** Lines 184-200, once the frontmatter has been read. *)
Lemma publish_eq content metadata slug w :
  parse_frontmatter E content = inr metadata ->
  PyOps.get metadata "slug" (PStr "default-slug") = inr slug ->
  publish E content w =
    (push_post E (py_str E slug ++ ".md") content ;;; update_index E metadata slug) w.
Proof.
  intros Hm Hs. unfold publish. unfold bind at 1, lift. rewrite Hm.
  unfold bind at 1. rewrite Hs. reflexivity.
Qed.

(** After the report is read, the post is committed first, and all that
    follows concerns the index. *)
Lemma publish_trace content metadata slug w :
  parse_frontmatter E content = inr metadata ->
  PyOps.get metadata "slug" (PStr "default-slug") = inr slug ->
  exists rest,
    trace (snd (publish E content w)) = (trace w ++ post_event E slug content :: rest)%list
    /\ forallb index_event rest = true.
Proof.
  intros Hm Hs. rewrite (publish_eq _ _ Hm Hs).
  unfold bind. rewrite push_post_eq.
  destruct (repo_create_file E (trace w) _ _ content) as [e|u].
  - exists []. split; reflexivity.
  - destruct (update_index_trace metadata slug
                (log_event (post_event E slug content) w)) as [rest [Ht Hr]].
    exists rest. split; [|exact Hr].
    unfold post_event in *. rewrite Ht. cbn [trace log_event].
    rewrite <- app_assoc. reflexivity.
Qed.

(** C9. When the report starts with the delimiter and the delimiter does
    not come again from position 3 on, [git_push_callback] ends with the
    [ValueError] of the substring search itself: no handler turns it into a
    [RuntimeError], and nothing has been committed. *)
Theorem unterminated_frontmatter_escapes w content :
  publisher_reads E w content ->
  PyStr.startswith content "---" = true ->
  (forall j, 3 <= j -> PyStr.slice content j (j + 3) <> "---") ->
  git_push_callback E w =
    (inl (Raise ValueError "substring not found"), at_report w).
Proof.
  intros Hread Hstart Habsent.
  rewrite (git_push_callback_reads Hread).
  unfold publish, bind, lift, parse_frontmatter.
  rewrite Hstart, (@PyStrFacts.find_from_absent "---" content 3 Habsent).
  reflexivity.
Qed.

(** C4. When the block between the leading delimiters of the report reads
    as a mapping whose [slug] is [my-post], the Publisher commits the report
    at [outstatic/content/blogs/my-post.md]: that call follows the opening
    of the repository, and every later call concerns the index. *)
Theorem post_is_committed_under_its_slug w content frontmatter_end d :
  publisher_reads E w content ->
  PyStr.startswith content "---" = true ->
  PyStr.find_from "---" content 3 = Some frontmatter_end ->
  yaml_safe_load E (PyStr.strip (PyStr.slice content 3 frontmatter_end)) = inr (PDict d) ->
  Py.lookup "slug" d = Some (PStr "my-post") ->
  exists rest,
    trace (snd (git_push_callback E w)) =
      (trace w ++ [ EvTime; EvGetRepo repo_name;
                    EvCreateFile "outstatic/content/blogs/my-post.md"
                                 "Add my-post.md" content ] ++ rest)%list
    /\ forallb index_event rest = true.
Proof.
  intros Hread Hstart Hfind Hyaml Hslug.
  rewrite (git_push_callback_reads Hread).
  assert (Hm : parse_frontmatter E content = inr (PDict d)).
  { unfold parse_frontmatter. rewrite Hstart, Hfind, Hyaml.
    destruct d; [discriminate|reflexivity]. }
  assert (Hs : PyOps.get (PDict d) "slug" (PStr "default-slug") = inr (PStr "my-post")).
  { unfold PyOps.get, Py.get. rewrite Hslug. reflexivity. }
  destruct (publish_trace _ (at_report w) Hm Hs) as [rest [Ht Hr]].
  exists rest. split; [|exact Hr].
  rewrite Ht. unfold at_report. cbn [trace log_event].
  rewrite <- !app_assoc. reflexivity.
Qed.

(** C5. When the report does not start with the delimiter, the frontmatter
    is the empty mapping, the post goes to [default-slug.md], and the entry
    the index is extended with is [default_entry]: category
    [Uncategorized], status [draft], title [Untitled], slug
    [default-slug]. *)
Theorem no_frontmatter_gives_defaults w content :
  publisher_reads E w content ->
  PyStr.startswith content "---" = false ->
  parse_frontmatter E content = inr (PDict [])
  /\ new_entry E (PDict []) (PStr "default-slug") = inr default_entry
  /\ git_push_callback E w =
       (push_post E "default-slug.md" content ;;;
        fetched <- fetch_index E ;;
        extend_index E (fst fetched) (snd fetched) default_entry) (at_report w)
  /\ PyOps.getitem default_entry "category" = inr (PStr "Uncategorized")
  /\ PyOps.getitem default_entry "status" = inr (PStr "draft")
  /\ PyOps.getitem default_entry "title" = inr (PStr "Untitled")
  /\ PyOps.getitem default_entry "slug" = inr (PStr "default-slug").
Proof.
  intros Hread Hstart.
  assert (Hm : parse_frontmatter E content = inr (PDict [])).
  { unfold parse_frontmatter. rewrite Hstart. reflexivity. }
  split; [exact Hm|]. split; [reflexivity|].
  split; [|repeat split].
  rewrite (git_push_callback_reads Hread).
  rewrite (publish_eq (slug := PStr "default-slug") _ _ Hm eq_refl).
  apply bind_ext. intros _ w'.
  unfold update_index, bind. rewrite fetch_index_eq.
  destruct (fetched_index E _) as [metadata_file metadata_json].
  reflexivity.
Qed.

(** Lines 202-248 when the fetch went through and the entry could be
    derived, appended and printed: the index is updated in place. *)
Lemma update_index_updates w metadata slug f j entry j' out :
  fetched_index E (repo_get_contents E (trace w) metadata_path) = (Some f, j) ->
  new_entry E metadata slug = inr entry ->
  PyOps.getitem_append j "metadata" entry = inr j' ->
  json_dumps E j' = inr out ->
  exists rest,
    trace (snd (update_index E metadata slug w)) =
      (trace w ++ [ EvGetContents metadata_path;
                    EvUpdateFile metadata_path "Update metadata" out (sha f) ]
               ++ rest)%list
    /\ only_clock rest = true.
Proof.
  intros Hf He Ha Hd.
  unfold update_index. unfold bind at 1. rewrite fetch_index_eq, Hf.
  unfold bind at 1, lift. rewrite He.
  unfold extend_index. unfold bind at 1, lift. rewrite Ha.
  unfold store_index. run. rewrite Hd.
  destruct (repo_update_file E _ metadata_path "Update metadata" out (sha f)) as [e|u].
  - exists []. cbn [snd trace log_event]. rewrite <- !app_assoc. split; reflexivity.
  - exists [EvTime]. run. rewrite <- !app_assoc. split; reflexivity.
Qed.

(** Lines 202-248 when the entry can be derived, appended and printed: the
    index is stored, in place or anew. *)
Lemma update_index_stores w metadata slug metadata_file j entry j' out :
  fetched_index E (repo_get_contents E (trace w) metadata_path) = (metadata_file, j) ->
  new_entry E metadata slug = inr entry ->
  PyOps.getitem_append j "metadata" entry = inr j' ->
  json_dumps E j' = inr out ->
  exists rest,
    trace (snd (update_index E metadata slug w)) =
      (trace w ++ [EvGetContents metadata_path; store_event metadata_file out] ++ rest)%list
    /\ only_clock rest = true.
Proof.
  intros Hf He Ha Hd.
  unfold update_index. unfold bind at 1. rewrite fetch_index_eq, Hf.
  unfold bind at 1, lift. rewrite He.
  unfold extend_index. unfold bind at 1, lift. rewrite Ha.
  unfold store_index, store_event. run. rewrite Hd.
  destruct metadata_file as [f|].
  - destruct (repo_update_file E _ metadata_path "Update metadata" out (sha f)) as [e|u].
    + exists []. cbn [snd trace log_event]. rewrite <- !app_assoc. split; reflexivity.
    + exists [EvTime]. run. rewrite <- !app_assoc. split; reflexivity.
  - destruct (repo_create_file E _ metadata_path "Create metadata" out) as [e|u].
    + exists []. cbn [snd trace log_event]. rewrite <- !app_assoc. split; reflexivity.
    + exists [EvTime]. run. rewrite <- !app_assoc. split; reflexivity.
Qed.

(** The whole run of the Publisher when every step goes through: the
    repository is opened, the post committed, the index fetched and
    stored. *)
Lemma git_push_callback_stores w content metadata slug metadata_file j entry j' out :
  publisher_reads E w content ->
  parse_frontmatter E content = inr metadata ->
  PyOps.get metadata "slug" (PStr "default-slug") = inr slug ->
  repo_create_file E (trace (at_report w)) (blogs_dir ++ py_str E slug ++ ".md")
                   ("Add " ++ py_str E slug ++ ".md") content = inr tt ->
  fetched_index E
    (repo_get_contents E
       (trace (log_event (post_event E slug content) (at_report w))) metadata_path)
    = (metadata_file, j) ->
  new_entry E metadata slug = inr entry ->
  PyOps.getitem_append j "metadata" entry = inr j' ->
  json_dumps E j' = inr out ->
  exists rest,
    trace (snd (git_push_callback E w)) =
      (trace w ++ [ EvTime; EvGetRepo repo_name; post_event E slug content;
                    EvGetContents metadata_path; store_event metadata_file out ]
               ++ rest)%list
    /\ only_clock rest = true.
Proof.
  intros Hread Hparse Hslug Hcreate Hf He Ha Hd.
  rewrite (git_push_callback_reads Hread).
  rewrite (@publish_eq content metadata slug _ Hparse Hslug).
  unfold bind. rewrite push_post_eq, Hcreate.
  destruct (@update_index_stores _ metadata slug metadata_file j entry j' out Hf He Ha Hd)
    as [rest [Ht Hr]].
  exists rest. split; [|exact Hr].
  unfold post_event in *. rewrite Ht. unfold at_report. cbn [trace log_event].
  rewrite <- !app_assoc. reflexivity.
Qed.

(** The fields of the entry, read off lines 209-226. *)
Lemma new_entry_fields d slug Y :
  new_entry E (PDict d) slug = inr Y ->
  exists a,
    Py.get "author" (PDict []) d = PDict a
    /\ Y = Py.obj
             [ ("category", Py.get "category" (PStr "Uncategorized") d);
               ("collection", PStr "blogs");
               ("coverImage", Py.get "coverImage" (PStr "") d);
               ("description", Py.get "description" (PStr "") d);
               ("publishedAt", Py.get "publishedAt" (PStr "") d);
               ("slug", slug);
               ("status", Py.get "status" (PStr "draft") d);
               ("title", Py.get "title" (PStr "Untitled") d);
               ("path", PStr (blogs_dir ++ py_str E slug ++ ".md"));
               ("author", Py.obj [ ("name", Py.get "name" (PStr "") a);
                                   ("picture", Py.get "picture" (PStr "") a) ]);
               ("__outstatic",
                Py.obj [("path", PStr (blogs_dir ++ py_str E slug ++ ".md"))]) ].
Proof.
  unfold new_entry. cbn [PyOps.get rbind].
  destruct (Py.get "author" (PDict []) d) as [| | | | | |a|] eqn:Ha;
    cbn [PyOps.get rbind]; try discriminate.
  intros H. injection H as <-. exists a. split; reflexivity.
Qed.

(** C6. When the fetched index reads as the object whose [metadata] is the
    list [entries], the Publisher writes back the index whose [metadata] is
    [entries] followed by the entry [Y] of the new post: what was there
    stays, in place and unchanged, and [Y] has the eleven fields of lines
    209-226, each read from the frontmatter [d] ([category],
    [coverImage], [description], [publishedAt], [status], [title], [author])
    or built from its slug ([slug], [path], [__outstatic]), with
    [collection] fixed.  The claim's index with the one entry [X] is the
    case [entries = [X]]. *)
Theorem index_append_keeps_entries w content d slug f text entries Y out :
  publisher_reads E w content ->
  parse_frontmatter E content = inr (PDict d) ->
  PyOps.get (PDict d) "slug" (PStr "default-slug") = inr slug ->
  repo_create_file E (trace (at_report w)) (blogs_dir ++ py_str E slug ++ ".md")
                   ("Add " ++ py_str E slug ++ ".md") content = inr tt ->
  repo_get_contents E
    (trace (log_event (post_event E slug content) (at_report w))) metadata_path
    = inr f ->
  decoded f = inr text ->
  json_loads E text = inr (Py.obj [("metadata", PList entries)]) ->
  new_entry E (PDict d) slug = inr Y ->
  json_dumps E (Py.obj [("metadata", PList (entries ++ [Y]))]) = inr out ->
  (slug = Py.get "slug" (PStr "default-slug") d
   /\ exists a,
        Py.get "author" (PDict []) d = PDict a
        /\ Y = Py.obj
                 [ ("category", Py.get "category" (PStr "Uncategorized") d);
                   ("collection", PStr "blogs");
                   ("coverImage", Py.get "coverImage" (PStr "") d);
                   ("description", Py.get "description" (PStr "") d);
                   ("publishedAt", Py.get "publishedAt" (PStr "") d);
                   ("slug", slug);
                   ("status", Py.get "status" (PStr "draft") d);
                   ("title", Py.get "title" (PStr "Untitled") d);
                   ("path", PStr (blogs_dir ++ py_str E slug ++ ".md"));
                   ("author", Py.obj [ ("name", Py.get "name" (PStr "") a);
                                       ("picture", Py.get "picture" (PStr "") a) ]);
                   ("__outstatic",
                    Py.obj [("path", PStr (blogs_dir ++ py_str E slug ++ ".md"))]) ])
  /\ PyOps.getitem_append (Py.obj [("metadata", PList entries)]) "metadata" Y
       = inr (Py.obj [("metadata", PList (entries ++ [Y]))])
  /\ exists rest,
       trace (snd (git_push_callback E w)) =
         (trace w ++ [ EvTime; EvGetRepo repo_name;
                       EvCreateFile (blogs_dir ++ py_str E slug ++ ".md")
                                    ("Add " ++ py_str E slug ++ ".md") content;
                       EvGetContents metadata_path;
                       EvUpdateFile metadata_path "Update metadata" out (sha f) ]
                  ++ rest)%list
       /\ only_clock rest = true.
Proof.
  intros Hread Hparse Hslug Hcreate Hget Hdec Hjson Hentry Hout.
  split; [|split; [reflexivity|]].
  - split; [cbn [PyOps.get] in Hslug; congruence|].
    exact (@new_entry_fields d slug Y Hentry).
  - apply (@git_push_callback_stores w content (PDict d) slug (Some f)
             (Py.obj [("metadata", PList entries)]) Y
             (Py.obj [("metadata", PList (entries ++ [Y]))]) out);
      try assumption; [|reflexivity].
    unfold fetched_index. rewrite Hget, Hdec, Hjson. reflexivity.
Qed.

(** C10. When the index file is fetched but cannot be read back, the
    Publisher still updates it in place, under the [sha] it fetched, and
    what it writes is the index with the new entry alone. *)
Theorem unreadable_index_is_replaced w metadata slug f Y out :
  repo_get_contents E (trace w) metadata_path = inr f ->
  undecodable E f = true ->
  new_entry E metadata slug = inr Y ->
  json_dumps E (Py.obj [("metadata", PList [Y])]) = inr out ->
  exists rest,
    trace (snd (update_index E metadata slug w)) =
      (trace w ++ [ EvGetContents metadata_path;
                    EvUpdateFile metadata_path "Update metadata" out (sha f) ]
               ++ rest)%list
    /\ only_clock rest = true.
Proof.
  intros Hget Hbad Hentry Hout.
  apply (@update_index_updates w metadata slug f empty_index Y
           (Py.obj [("metadata", PList [Y])]) out);
    [|exact Hentry|reflexivity|exact Hout].
  unfold fetched_index. rewrite Hget. unfold undecodable in Hbad.
  destruct (decoded f) as [e|text]; [reflexivity|].
  destruct (json_loads E text); [reflexivity|discriminate].
Qed.

End Publisher.

Lemma demo_reads text :
  publisher_reads Demo.E (Demo.written text)
                  (PyStr.strip (PyStr.universal_newlines text)).
Proof.
  split; [|split].
  - exists "ghp_token". split; [reflexivity|discriminate].
  - reflexivity.
  - exists text. split; reflexivity.
Qed.

Lemma unterminated_frontmatter_escapes_witness :
  git_push_callback Demo.E (Demo.written Demo.open_post) =
    (inl (Raise ValueError "substring not found"),
     at_report (Demo.written Demo.open_post)).
Proof.
  apply (@unterminated_frontmatter_escapes Demo.E (Demo.written Demo.open_post)
           Demo.open_post).
  - exact (demo_reads Demo.open_post).
  - reflexivity.
  - intros j Hj.
    do 9 (destruct j as [|j]; [first [lia | vm_compute; discriminate]|]).
    vm_compute. discriminate.
Defined.

Lemma post_is_committed_under_its_slug_witness :
  exists rest,
    trace (snd (git_push_callback Demo.E (Demo.written Demo.post))) =
      ([ EvTime; EvGetRepo repo_name;
         EvCreateFile "outstatic/content/blogs/my-post.md" "Add my-post.md" Demo.post ]
       ++ rest)%list
    /\ forallb index_event rest = true.
Proof.
  apply (@post_is_committed_under_its_slug Demo.E (Demo.written Demo.post) Demo.post 35
           [(PStr "title", PStr "Hello"); (PStr "slug", PStr "my-post")]).
  - exact (demo_reads Demo.post).
  - reflexivity.
  - reflexivity.
  - reflexivity.
  - reflexivity.
Defined.

Lemma no_frontmatter_gives_defaults_witness :
  parse_frontmatter Demo.E Demo.plain_post = inr (PDict [])
  /\ new_entry Demo.E (PDict []) (PStr "default-slug") = inr default_entry
  /\ git_push_callback Demo.E (Demo.written Demo.plain_post) =
       (push_post Demo.E "default-slug.md" Demo.plain_post ;;;
        fetched <- fetch_index Demo.E ;;
        extend_index Demo.E (fst fetched) (snd fetched) default_entry)
         (at_report (Demo.written Demo.plain_post))
  /\ PyOps.getitem default_entry "category" = inr (PStr "Uncategorized")
  /\ PyOps.getitem default_entry "status" = inr (PStr "draft")
  /\ PyOps.getitem default_entry "title" = inr (PStr "Untitled")
  /\ PyOps.getitem default_entry "slug" = inr (PStr "default-slug").
Proof.
  apply (@no_frontmatter_gives_defaults Demo.E (Demo.written Demo.plain_post)
           Demo.plain_post).
  - exact (demo_reads Demo.plain_post).
  - reflexivity.
Defined.


(* ===================================================================== *)
(** ** The whole pipeline and the route *)
(* ===================================================================== *)

Section Pipeline.

Variable E : env.

Hypothesis C : cooperative E.

(** The shape the four text stages share, on a reply that is not blank. *)
Lemma good_reply_returns A prompt max_tokens msg (g : string -> A)
      (h : exn -> M A) w :
  exists text,
    try_except
      (response <- chat E prompt max_tokens ;;
       content <- content_strip response ;;
       if is_empty content then raise (Raise ValueError msg)
       else now_time E ;;; ret (g content))
      h w
    = (inr (g (PyStr.strip text)),
       log_event EvTime (log_event (EvChat "gpt-4o-mini" prompt max_tokens) w))
    /\ chat_completions_create E (trace w) prompt max_tokens = inr (Some text)
    /\ PyStr.all_space text = false.
Proof.
  destruct (coop_chat C (trace w) prompt max_tokens) as [text [Hc Hb]].
  exists text. split; [|split; assumption].
  run. rewrite Hc. rewrite PyStrFacts.is_empty_strip, Hb. reflexivity.
Qed.

Lemma select_category_and_title_ok w :
  exists text w',
    select_category_and_title E w = (inr (drawn E w, PyStr.strip text), w')
    /\ PyStr.all_space text = false.
Proof.
  unfold select_category_and_title.
  unfold bind at 1. unfold choice, bind at 1, call, ret.
  unfold bind at 1. unfold now_time at 1, call.
  match goal with
  | |- context [try_except ?m ?h ?w0] =>
      destruct (@good_reply_returns _ (title_prompt (drawn E w)) 50
                  "Empty title response" (fun t => (drawn E w, t)) h w0)
        as [text [Hrun [_ Hb]]]
  end.
  exists text. eexists. split; [exact Hrun|exact Hb].
Qed.

Lemma research_topic_ok topic current_year w :
  PyStr.all_space topic = false ->
  PyStr.isdigit current_year = true ->
  exists r w', research_topic E topic current_year w = (inr r, w').
Proof.
  intros Ht Hy. unfold research_topic.
  rewrite topic_guard, Ht, Hy. cbn [negb].
  unfold bind at 1. unfold now_time at 1, call.
  match goal with
  | |- context [try_except ?m ?h ?w0] =>
      destruct (@good_reply_returns _ (research_prompt topic current_year) 300
                  "Empty OpenAI response" (fun t => t) h w0)
        as [text [Hrun _]]
  end.
  eexists _, _. exact Hrun.
Qed.

Lemma generate_image_prompt_ok topic title research_output w :
  exists r w', generate_image_prompt E topic title research_output w = (inr r, w').
Proof.
  unfold generate_image_prompt.
  unfold bind at 1. unfold now_time at 1, call.
  match goal with
  | |- context [try_except ?m ?h ?w0] =>
      destruct (@good_reply_returns _
                  (image_prompt_prompt topic title research_output) 50
                  "Empty image prompt response" (fun t => t) h w0)
        as [text [Hrun _]]
  end.
  eexists _, _. exact Hrun.
Qed.

Lemma generate_and_upload_image_ok image_prompt title w :
  exists url w', generate_and_upload_image E image_prompt title w = (inr url, w').
Proof.
  unfold generate_and_upload_image. run.
  repeat match goal with
         | |- context [match ?x with _ => _ end] =>
             match type of x with
             | result _ => destruct x; run
             | option _ => destruct x; run
             end
         end;
    eexists _, _; reflexivity.
Qed.

Lemma write_blog_post_ok topic research_output name picture cover date w :
  exists post w',
    write_blog_post E topic research_output name picture cover date w = (inr post, w')
    /\ publishable E post.
Proof.
  unfold write_blog_post.
  unfold bind at 1. unfold now_time at 1, call.
  match goal with
  | |- context [try_except ?m ?h ?w0] =>
      destruct (@good_reply_returns _
                  (blog_prompt topic research_output name picture cover date) 600
                  "Empty OpenAI response" (fun t => t) h w0)
        as [text [Hrun [Hc _]]]
  end.
  eexists _, _. split; [exact Hrun|].
  exact (coop_post C _ _ Hc).
Qed.

Lemma git_push_callback_ok w post :
  report_md w = Some post ->
  publishable E post ->
  exists w', git_push_callback E w = (inr "Successfully pushed blog post", w').
Proof.
  intros Hr [d [Y [Hparse [Hentry Hidx]]]].
  assert (Hread : publisher_reads E w (PyStr.strip (PyStr.universal_newlines post))).
  { split; [exact (coop_token C)|]. split; [apply (coop_repo C)|].
    exists post. split; [exact Hr|reflexivity]. }
  rewrite (git_push_callback_reads Hread).
  rewrite (@publish_eq E _ (PDict d) (Py.get "slug" (PStr "default-slug") d) _ Hparse eq_refl).
  unfold bind at 1. rewrite push_post_eq, (coop_create C).
  unfold update_index. unfold bind at 1. rewrite fetch_index_eq.
  match goal with
  | |- context [fetched_index E (repo_get_contents E ?h metadata_path)] =>
      destruct (Hidx h) as [j' [out [Ha Hd]]];
      destruct (fetched_index E (repo_get_contents E h metadata_path))
        as [metadata_file metadata_json]
  end.
  cbn [snd] in Ha.
  unfold bind at 1, lift. rewrite Hentry.
  unfold extend_index. unfold bind at 1, lift. rewrite Ha.
  unfold store_index. run. rewrite Hd.
  destruct metadata_file as [f|].
  - rewrite (coop_update C). eexists. reflexivity.
  - rewrite (coop_create C). eexists. reflexivity.
Qed.

Lemma run_agent_completes w :
  exists t w',
    run_agent E w =
      (inr (Py.obj [ ("result", PStr "Successfully pushed blog post");
                     ("execution_time", PFloat t) ]), w').
Proof.
  unfold run_agent.
  unfold bind at 1. unfold now_time at 1, call.
  unfold try_except.
  unfold bind at 1.
  destruct (select_category_and_title_ok (log_event EvTime w))
    as [text [w1 [Hs Hb]]].
  rewrite Hs.
  unfold bind at 1. unfold now_datetime at 1, call.
  unfold bind at 1. unfold now_datetime at 1, call.
  unfold bind at 1.
  match goal with
  | |- context [research_topic E ?topic ?y ?w0] =>
      destruct (@research_topic_ok topic y w0
                  (PyStrFacts.strip_not_blank _ (PyStrFacts.strip_not_blank _ Hb))
                  (PyStrFacts.isdigit_of_N _))
        as [research_output [w2 Hres]]
  end.
  rewrite Hres.
  unfold bind at 1.
  match goal with
  | |- context [generate_image_prompt E ?a ?b ?c ?w0] =>
      destruct (@generate_image_prompt_ok a b c w0) as [image_prompt [w3 Hip]]
  end.
  rewrite Hip.
  unfold bind at 1.
  match goal with
  | |- context [generate_and_upload_image E ?a ?b ?w0] =>
      destruct (@generate_and_upload_image_ok a b w0) as [cover [w4 Him]]
  end.
  rewrite Him.
  unfold bind at 1.
  match goal with
  | |- context [write_blog_post E ?a ?b ?c ?d ?e ?f ?w0] =>
      destruct (@write_blog_post_ok a b c d e f w0) as [post [w5 [Hpost Hpub]]]
  end.
  rewrite Hpost.
  unfold bind at 1. unfold write_report at 1.
  unfold bind at 1. unfold now_time at 1, call.
  unfold bind at 1.
  match goal with
  | |- context [git_push_callback E ?w0] =>
      destruct (@git_push_callback_ok w0 post eq_refl Hpub) as [w6 Hgit]
  end.
  rewrite Hgit.
  run. eexists _, _. reflexivity.
Qed.

(** C1, as the code has it.  When the outside world lets the pipeline
    through, [GET /run-agent] answers with status 200 and the fixed
    acknowledgement; the object with [result] and [execution_time] is what
    [run_agent] returns, and the route does not pass it on. *)
Theorem run_agent_route_acknowledges w :
  fst (serve (trigger_event E) w) =
    {| status := 200;
       body := Py.obj [("message", PStr "Agent is running in the background")] |}
  /\ exists t,
       fst (run_agent E w) =
         inr (Py.obj [ ("result", PStr "Successfully pushed blog post");
                       ("execution_time", PFloat t) ]).
Proof.
  destruct (run_agent_completes w) as [t [w' Hrun]].
  split.
  - unfold serve, trigger_event, bind. rewrite Hrun. reflexivity.
  - exists t. rewrite Hrun. reflexivity.
Qed.

End Pipeline.

Lemma demo_publishable text :
  PyStr.strip text = Demo.post \/ PyStr.strip text = "A Title" ->
  publishable Demo.E (PyStr.strip text).
Proof.
  intros [-> | ->].
  - exists [(PStr "title", PStr "Hello"); (PStr "slug", PStr "my-post")].
    eexists. split; [reflexivity|]. split; [reflexivity|].
    intros h. eexists _, _. split; reflexivity.
  - exists []. eexists. split; [reflexivity|]. split; [reflexivity|].
    intros h. eexists _, _. split; reflexivity.
Qed.

Lemma demo_cooperative : cooperative Demo.E.
Proof.
  constructor.
  - exists "ghp_token". split; [reflexivity|discriminate].
  - intros h prompt n. eexists. split; [reflexivity|].
    unfold Demo.replies. destruct (n =? 600)%Z; reflexivity.
  - intros h prompt text H. injection H as <-.
    apply demo_publishable. left. reflexivity.
  - reflexivity.
  - reflexivity.
  - reflexivity.
Qed.

Lemma run_agent_route_acknowledges_witness :
  fst (serve (trigger_event Demo.E) Demo.start) =
    {| status := 200;
       body := Py.obj [("message", PStr "Agent is running in the background")] |}
  /\ exists t,
       fst (run_agent Demo.E Demo.start) =
         inr (Py.obj [ ("result", PStr "Successfully pushed blog post");
                       ("execution_time", PFloat t) ]).
Proof.
  exact (@run_agent_route_acknowledges Demo.E demo_cooperative Demo.start).
Defined.

(** C1, as the claim has it, fails.  In a world where every call succeeds,
    the body of the answer is the acknowledgement, with neither [result] nor
    [execution_time] in it, while [run_agent] did return both; and in a
    world where every call succeeds but the model's post opens a
    frontmatter block it never closes, the answer is a 500. *)
Lemma run_agent_route_drops_result :
  cooperative Demo.E
  /\ status (fst (serve (trigger_event Demo.E) Demo.start)) = 200%Z
  /\ body (fst (serve (trigger_event Demo.E) Demo.start)) =
       Py.obj [("message", PStr "Agent is running in the background")]
  /\ PyOps.getitem (body (fst (serve (trigger_event Demo.E) Demo.start))) "result"
       = inl (Raise KeyError "'result'")
  /\ PyOps.getitem (body (fst (serve (trigger_event Demo.E) Demo.start)))
                   "execution_time"
       = inl (Raise KeyError "'execution_time'")
  /\ fst (run_agent Demo.E Demo.start) =
       inr (Py.obj [ ("result", PStr "Successfully pushed blog post");
                     ("execution_time", PFloat 29) ])
  /\ fst (serve (trigger_event Demo.E_open) Demo.start) =
       {| status := 500;
          body := Py.obj [("detail", PStr "substring not found")] |}.
Proof.
  split; [exact demo_cooperative|].
  repeat split; vm_compute; reflexivity.
Qed.

Lemma index_append_keeps_entries_witness :
  PyOps.getitem_append (Py.obj [("metadata", PList [Demo.old_entry])]) "metadata"
                       Edge.hello_entry
    = inr (Py.obj [("metadata", PList [Demo.old_entry; Edge.hello_entry])])
  /\ exists rest,
       trace (snd (git_push_callback Demo.E (Demo.written Demo.post))) =
         ([ EvTime; EvGetRepo repo_name;
            EvCreateFile "outstatic/content/blogs/my-post.md" "Add my-post.md"
                         Demo.post;
            EvGetContents metadata_path;
            EvUpdateFile metadata_path "Update metadata"
              (Demo.text_of
                 (Py.obj [("metadata", PList [Demo.old_entry; Edge.hello_entry])]))
              "3b18e5" ] ++ rest)%list
       /\ only_clock rest = true.
Proof.
  destruct (@index_append_keeps_entries Demo.E (Demo.written Demo.post) Demo.post
              [(PStr "title", PStr "Hello"); (PStr "slug", PStr "my-post")]
              (PStr "my-post")
              {| decoded := inr Demo.old_index_text; sha := "3b18e5" |}
              Demo.old_index_text [Demo.old_entry] Edge.hello_entry
              (Demo.text_of
                 (Py.obj [("metadata", PList [Demo.old_entry; Edge.hello_entry])]))
              (demo_reads Demo.post) eq_refl eq_refl eq_refl eq_refl eq_refl eq_refl
              eq_refl eq_refl) as [_ H].
  exact H.
Defined.

Lemma unreadable_index_is_replaced_witness :
  exists rest,
    trace (snd (update_index Demo.E_broken Demo.frontmatter (PStr "my-post")
                             Demo.start)) =
      ([ EvGetContents metadata_path;
         EvUpdateFile metadata_path "Update metadata"
           (Demo.text_of (Py.obj [("metadata", PList [Demo.my_entry])]))
           "77aa01" ] ++ rest)%list
    /\ only_clock rest = true.
Proof.
  apply (@unreadable_index_is_replaced Demo.E_broken Demo.start Demo.frontmatter
           (PStr "my-post")
           {| decoded := inr "<html>Bad gateway</html>"; sha := "77aa01" |}
           Demo.my_entry
           (Demo.text_of (Py.obj [("metadata", PList [Demo.my_entry])])));
    reflexivity.
Defined.

(* ===================================================================== *)
(** ** The slug *)
(* ===================================================================== *)

Section Slug.

Variable E : env.

Lemma new_entry_slug d slug Y :
  new_entry E (PDict d) slug = inr Y -> PyOps.getitem Y "slug" = inr slug.
Proof.
  unfold new_entry. cbn [PyOps.get rbind].
  destruct (PyOps.get (Py.get "author" (PDict []) d) "name" (PStr "")) as [e|name];
    cbn [rbind]; [discriminate|].
  destruct (PyOps.get (Py.get "author" (PDict []) d) "picture" (PStr ""))
    as [e|picture]; cbn [rbind]; [discriminate|].
  intros H. injection H as <-. reflexivity.
Qed.

Lemma new_entry_path d slug Y :
  new_entry E (PDict d) slug = inr Y ->
  PyOps.getitem Y "path" = inr (PStr (blogs_dir ++ py_str E slug ++ ".md")).
Proof.
  unfold new_entry. cbn [PyOps.get rbind].
  destruct (PyOps.get (Py.get "author" (PDict []) d) "name" (PStr "")) as [e|name];
    cbn [rbind]; [discriminate|].
  destruct (PyOps.get (Py.get "author" (PDict []) d) "picture" (PStr ""))
    as [e|picture]; cbn [rbind]; [discriminate|].
  intros H. injection H as <-. reflexivity.
Qed.

(** C7, as the code has it.  The slug is the value under [slug] in the
    frontmatter, used as it stands for the file name and for the entry, and
    [default-slug] when the mapping has no such key; nothing checks or
    rewrites it.  In the run of the Publisher the post is committed under
    that slug and the index that is stored holds the entry derived from
    that same slug, whose [slug] and [path] fields carry it. *)
Theorem slug_is_taken_as_written w content d :
  publisher_reads E w content ->
  parse_frontmatter E content = inr (PDict d) ->
  (exists rest,
     trace (snd (git_push_callback E w)) =
       (trace (at_report w)
          ++ post_event E (Py.get "slug" (PStr "default-slug") d) content :: rest)%list
     /\ forallb index_event rest = true)
  /\ (forall Y,
        new_entry E (PDict d) (Py.get "slug" (PStr "default-slug") d) = inr Y ->
        PyOps.getitem Y "slug" = inr (Py.get "slug" (PStr "default-slug") d))
  /\ (forall v, Py.lookup "slug" d = Some v ->
                Py.get "slug" (PStr "default-slug") d = v)
  /\ (Py.lookup "slug" d = None ->
      post_event E (Py.get "slug" (PStr "default-slug") d) content =
        EvCreateFile "outstatic/content/blogs/default-slug.md"
                     "Add default-slug.md" content
      /\ url_safe "default-slug" = true)
  /\ (forall metadata_file j Y j' out,
        repo_create_file E (trace (at_report w))
          (blogs_dir ++ py_str E (Py.get "slug" (PStr "default-slug") d) ++ ".md")
          ("Add " ++ py_str E (Py.get "slug" (PStr "default-slug") d) ++ ".md")
          content = inr tt ->
        fetched_index E
          (repo_get_contents E
             (trace (log_event
                       (post_event E (Py.get "slug" (PStr "default-slug") d) content)
                       (at_report w))) metadata_path)
          = (metadata_file, j) ->
        new_entry E (PDict d) (Py.get "slug" (PStr "default-slug") d) = inr Y ->
        PyOps.getitem_append j "metadata" Y = inr j' ->
        json_dumps E j' = inr out ->
        PyOps.getitem Y "slug" = inr (Py.get "slug" (PStr "default-slug") d)
        /\ PyOps.getitem Y "path" =
             inr (PStr (blogs_dir
                          ++ py_str E (Py.get "slug" (PStr "default-slug") d)
                          ++ ".md"))
        /\ exists rest,
             trace (snd (git_push_callback E w)) =
               (trace w
                  ++ [ EvTime; EvGetRepo repo_name;
                       EvCreateFile
                         (blogs_dir
                            ++ py_str E (Py.get "slug" (PStr "default-slug") d)
                            ++ ".md")
                         ("Add "
                            ++ py_str E (Py.get "slug" (PStr "default-slug") d)
                            ++ ".md")
                         content;
                       EvGetContents metadata_path;
                       store_event metadata_file out ] ++ rest)%list
             /\ only_clock rest = true).
Proof.
  intros Hread Hparse.
  split; [|split; [|split; [|split]]].
  - rewrite (git_push_callback_reads Hread).
    exact (@publish_trace E content (PDict d) _ (at_report w) Hparse eq_refl).
  - intros Y. apply new_entry_slug.
  - intros v Hv. unfold Py.get. rewrite Hv. reflexivity.
  - intros Hnone. unfold Py.get, post_event. rewrite Hnone.
    split; reflexivity.
  - intros mf j Y j' out Hcreate Hf He Ha Hd.
    split; [exact (@new_entry_slug d _ Y He)|].
    split; [exact (@new_entry_path d _ Y He)|].
    exact (@git_push_callback_stores E w content (PDict d) _ mf j Y j' out
             Hread Hparse eq_refl Hcreate Hf He Ha Hd).
Qed.

End Slug.

Lemma slug_is_taken_as_written_witness :
  ((exists rest,
      trace (snd (git_push_callback Demo.E (Demo.written Demo.spaced_post))) =
        (trace (at_report (Demo.written Demo.spaced_post))
           ++ EvCreateFile "outstatic/content/blogs/my post.md" "Add my post.md"
                           Demo.spaced_post :: rest)%list
      /\ forallb index_event rest = true)
   /\ url_safe "my post" = false)
  /\ PyOps.getitem Edge.spaced_entry "slug" = inr (PStr "my post")
  /\ PyOps.getitem Edge.spaced_entry "path" =
       inr (PStr "outstatic/content/blogs/my post.md")
  /\ exists rest,
       trace (snd (git_push_callback Demo.E (Demo.written Demo.spaced_post))) =
         ([ EvTime; EvGetRepo repo_name;
            EvCreateFile "outstatic/content/blogs/my post.md" "Add my post.md"
                         Demo.spaced_post;
            EvGetContents metadata_path;
            EvUpdateFile metadata_path "Update metadata"
              (Demo.text_of
                 (Py.obj [("metadata", PList [Demo.old_entry; Edge.spaced_entry])]))
              "3b18e5" ] ++ rest)%list
       /\ only_clock rest = true.
Proof.
  destruct (@slug_is_taken_as_written Demo.E (Demo.written Demo.spaced_post)
              Demo.spaced_post [(PStr "slug", PStr "my post")]
              (demo_reads Demo.spaced_post) eq_refl)
    as [Hcommit [_ [_ [_ Hrun]]]].
  split; [split; [exact Hcommit|reflexivity]|].
  exact (Hrun (Some {| decoded := inr Demo.old_index_text; sha := "3b18e5" |})
              (Py.obj [("metadata", PList [Demo.old_entry])])
              Edge.spaced_entry
              (Py.obj [("metadata", PList [Demo.old_entry; Edge.spaced_entry])])
              (Demo.text_of
                 (Py.obj [("metadata", PList [Demo.old_entry; Edge.spaced_entry])]))
              eq_refl eq_refl eq_refl eq_refl eq_refl).
Defined.

(** C7, as the claim has it, fails: a frontmatter whose slug is [my post]
    sends the post to [my post.md] and records that slug and that path in
    the entry added to the stored index, and a space is not URL-safe. *)
Lemma slug_with_a_space_is_kept :
  parse_frontmatter Demo.E Demo.spaced_post = inr (Py.obj [("slug", PStr "my post")])
  /\ nth_error (trace (snd (git_push_callback Demo.E (Demo.written Demo.spaced_post)))) 2
     = Some (EvCreateFile "outstatic/content/blogs/my post.md" "Add my post.md"
                          Demo.spaced_post)
  /\ url_safe "my post" = false
  /\ nth_error (trace (snd (git_push_callback Demo.E (Demo.written Demo.spaced_post)))) 4
     = Some (EvUpdateFile metadata_path "Update metadata"
               (Demo.text_of
                  (Py.obj [("metadata", PList [Demo.old_entry; Edge.spaced_entry])]))
               "3b18e5")
  /\ PyOps.getitem Edge.spaced_entry "slug" = inr (PStr "my post")
  /\ PyOps.getitem Edge.spaced_entry "path" =
       inr (PStr "outstatic/content/blogs/my post.md").
Proof. repeat split. Qed.

(* ===================================================================== *)
(** ** Start-up checks *)
(* ===================================================================== *)

Lemma check_vars_ok getenv vars :
  check_vars getenv vars = inr tt <-> forallb (is_set getenv) vars = true.
Proof.
  induction vars as [|var rest IH]; simpl; [tauto|].
  destruct (is_set getenv var); simpl; [exact IH|].
  split; discriminate.
Qed.

Lemma check_vars_error getenv vars e :
  check_vars getenv vars = inl e ->
  exists before var after,
    vars = (before ++ var :: after)%list
    /\ forallb (is_set getenv) before = true
    /\ is_set getenv var = false
    /\ e = Raise ValueError (var ++ " not set").
Proof.
  induction vars as [|var rest IH]; simpl; [discriminate|].
  destruct (is_set getenv var) eqn:Hv.
  - intros H. destruct (IH H) as (before & v & after & -> & Hb & Hn & ->).
    exists (var :: before), v, after. simpl. rewrite Hv. auto.
  - intros H. injection H as <-. exists [], var, rest. auto.
Qed.

(** X1. The module starts exactly when the three variables are all set to
    something non-empty; otherwise it stops with a [ValueError] that names
    the first one, in the order OPENAI_API_KEY, GIT_TOKEN,
    BLOB_READ_WRITE_TOKEN, that is not. *)
Theorem check_environment_names_first_missing getenv :
  (check_environment getenv = inr tt <->
     is_set getenv "OPENAI_API_KEY" = true
     /\ is_set getenv "GIT_TOKEN" = true
     /\ is_set getenv "BLOB_READ_WRITE_TOKEN" = true)
  /\ (forall e, check_environment getenv = inl e ->
        exists before var after,
          required_vars = (before ++ var :: after)%list
          /\ forallb (is_set getenv) before = true
          /\ is_set getenv var = false
          /\ e = Raise ValueError (var ++ " not set")).
Proof.
  split.
  - unfold check_environment. rewrite check_vars_ok. simpl.
    rewrite !andb_true_iff. tauto.
  - intros e. apply check_vars_error.
Qed.

(* ===================================================================== *)
(** ** What a text stage can return or raise *)
(* ===================================================================== *)

Section StageOutcomes.

Variable E : env.

(** The shape the four stages share, whatever the model does: the text of
    the reply, stripped and not empty, or the stage's [RuntimeError]. *)
Lemma guarded_reply_outcome A prompt max_tokens msg (g : string -> A) prefix w :
  (exists text,
      chat_completions_create E (trace w) prompt max_tokens = inr (Some text)
      /\ PyStr.all_space text = false
      /\ fst (try_except
                (response <- chat E prompt max_tokens ;;
                 content <- content_strip response ;;
                 if is_empty content then raise (Raise ValueError msg)
                 else now_time E ;;; ret (g content))
                (fun e => raise (Raise RuntimeError (prefix ++ exn_str e))) w)
         = inr (g (PyStr.strip text)))
  \/ (exists detail,
        fst (try_except
               (response <- chat E prompt max_tokens ;;
                content <- content_strip response ;;
                if is_empty content then raise (Raise ValueError msg)
                else now_time E ;;; ret (g content))
               (fun e => raise (Raise RuntimeError (prefix ++ exn_str e))) w)
        = inl (Raise RuntimeError (prefix ++ detail))).
Proof.
  run.
  destruct (chat_completions_create E (trace w) prompt max_tokens)
    as [e|[text|]] eqn:Hc; run.
  - right. eexists. reflexivity.
  - rewrite PyStrFacts.is_empty_strip.
    destruct (PyStr.all_space text) eqn:Hb.
    + right. eexists. reflexivity.
    + left. exists text. auto.
  - right. eexists. reflexivity.
Qed.

Lemma drawn_in_categories w : In (drawn E w) categories.
Proof.
  unfold drawn. apply nth_In.
  apply Nat.mod_upper_bound. discriminate.
Qed.

(** X2. Whatever the model answers, a text stage hands on only text that
    is not blank (the reply, stripped), and fails only with its own
    [RuntimeError], whose message starts with the stage's name; the title
    stage also returns one of the nine categories.  For the Researcher the
    inputs are taken to pass lines 30-33. *)
Theorem text_stage_outcomes w :
  match fst (select_category_and_title E w) with
  | inr (category, title) => In category categories /\ PyStr.all_space title = false
  | inl e => exists detail, e = Raise RuntimeError ("Title generation failed: " ++ detail)
  end
  /\ (forall topic current_year,
        PyStr.all_space topic = false ->
        PyStr.isdigit current_year = true ->
        match fst (research_topic E topic current_year w) with
        | inr content => PyStr.all_space content = false
        | inl e => exists detail, e = Raise RuntimeError ("Research failed: " ++ detail)
        end)
  /\ (forall topic title research_output,
        match fst (generate_image_prompt E topic title research_output w) with
        | inr content => PyStr.all_space content = false
        | inl e =>
            exists detail,
              e = Raise RuntimeError ("Image prompt generation failed: " ++ detail)
        end)
  /\ (forall topic research_output name picture cover date,
        match fst (write_blog_post E topic research_output name picture cover date w) with
        | inr content => PyStr.all_space content = false
        | inl e => exists detail, e = Raise RuntimeError ("Blog post failed: " ++ detail)
        end).
Proof.
  split; [|split; [|split]].
  - unfold select_category_and_title.
    unfold bind at 1. unfold choice, bind at 1, call, ret.
    unfold bind at 1. unfold now_time at 1, call.
    match goal with
    | |- context [try_except ?m ?h ?w0] =>
        destruct (@guarded_reply_outcome _ (title_prompt (drawn E w)) 50
                    "Empty title response" (fun t => (drawn E w, t))
                    "Title generation failed: " w0)
          as [[text [_ [Hb Hr]]]|[detail Hr]]
    end.
    + settle Hr. split; [apply drawn_in_categories|].
      apply PyStrFacts.strip_not_blank. exact Hb.
    + settle Hr. eauto.
  - intros topic current_year Ht Hy. unfold research_topic.
    rewrite topic_guard, Ht, Hy. cbn [negb].
    unfold bind at 1. unfold now_time at 1, call.
    match goal with
    | |- context [try_except ?m ?h ?w0] =>
        destruct (@guarded_reply_outcome _ (research_prompt topic current_year) 300
                    "Empty OpenAI response" (fun t => t) "Research failed: " w0)
          as [[text [_ [Hb Hr]]]|[detail Hr]]
    end; settle Hr; [apply PyStrFacts.strip_not_blank; exact Hb|eauto].
  - intros topic title research_output. unfold generate_image_prompt.
    unfold bind at 1. unfold now_time at 1, call.
    match goal with
    | |- context [try_except ?m ?h ?w0] =>
        destruct (@guarded_reply_outcome _
                    (image_prompt_prompt topic title research_output) 50
                    "Empty image prompt response" (fun t => t)
                    "Image prompt generation failed: " w0)
          as [[text [_ [Hb Hr]]]|[detail Hr]]
    end; settle Hr; [apply PyStrFacts.strip_not_blank; exact Hb|eauto].
  - intros topic research_output name picture cover date. unfold write_blog_post.
    unfold bind at 1. unfold now_time at 1, call.
    match goal with
    | |- context [try_except ?m ?h ?w0] =>
        destruct (@guarded_reply_outcome _
                    (blog_prompt topic research_output name picture cover date) 600
                    "Empty OpenAI response" (fun t => t) "Blog post failed: " w0)
          as [[text [_ [Hb Hr]]]|[detail Hr]]
    end; settle Hr; [apply PyStrFacts.strip_not_blank; exact Hb|eauto].
Qed.

End StageOutcomes.

(* ===================================================================== *)
(** ** What the route can answer *)
(* ===================================================================== *)

Section RouteOutcomes.

Variable E : env.

Lemma git_push_callback_result w s :
  fst (git_push_callback E w) = inr s -> s = "Successfully pushed blog post".
Proof.
  unfold git_push_callback, publish, push_post, update_index, fetch_index,
    extend_index, store_index.
  split_run; run; intros H; first [discriminate|injection H as <-; reflexivity].
Qed.

Lemma run_agent_outcome w :
  match fst (run_agent E w) with
  | inr v =>
      exists t, v = Py.obj [ ("result", PStr "Successfully pushed blog post");
                             ("execution_time", PFloat t) ]
  | inl e => exists detail, e = Raise (HTTPException 500) detail
  end.
Proof.
  unfold run_agent. run.
  repeat (match goal with
          | |- context [select_category_and_title E ?w0] =>
              destruct (select_category_and_title E w0) as [[?e|[? ?]] ?w]
          | |- context [research_topic E ?a ?b ?w0] =>
              destruct (research_topic E a b w0) as [[?e|?r] ?w]
          | |- context [generate_image_prompt E ?a ?b ?c ?w0] =>
              destruct (generate_image_prompt E a b c w0) as [[?e|?r] ?w]
          | |- context [generate_and_upload_image E ?a ?b ?w0] =>
              destruct (generate_and_upload_image E a b w0) as [[?e|?r] ?w]
          | |- context [write_blog_post E ?a ?b ?c ?d ?f ?g ?w0] =>
              destruct (write_blog_post E a b c d f g w0) as [[?e|?r] ?w]
          | |- context [git_push_callback E ?w0] =>
              pose proof (@git_push_callback_result w0) as Hg;
              destruct (git_push_callback E w0) as [[?e|pushed] ?w];
              [|rewrite (Hg pushed eq_refl)]
          end; run); eauto.
Qed.

(** X3. Whatever the outside world does, [GET /run-agent] has two answers
    only: status 200 with the fixed acknowledgement, when [run_agent]
    returned its object with the success message and a float, or status 500
    with a [detail] text, when [run_agent] raised; [run_agent] raises nothing
    but an [HTTPException] with status 500, so the framework's bare 500 never
    shows. *)
Theorem run_agent_route_outcomes w :
  (fst (serve (trigger_event E) w) =
     {| status := 200;
        body := Py.obj [("message", PStr "Agent is running in the background")] |}
   /\ exists t,
        fst (run_agent E w) =
          inr (Py.obj [ ("result", PStr "Successfully pushed blog post");
                        ("execution_time", PFloat t) ]))
  \/ (exists detail,
        fst (serve (trigger_event E) w) =
          {| status := 500; body := Py.obj [("detail", PStr detail)] |}
        /\ fst (run_agent E w) = inl (Raise (HTTPException 500) detail)).
Proof.
  pose proof (run_agent_outcome w) as H.
  unfold serve, trigger_event, bind.
  destruct (run_agent E w) as [[e|v] w']; cbn [fst] in *.
  - destruct H as [detail ->]. right. exists detail. split; reflexivity.
  - destruct H as [t ->]. left. split; [reflexivity|]. exists t. reflexivity.
Qed.

End RouteOutcomes.

(* ===================================================================== *)
(** ** The Publisher when something goes wrong *)
(* ===================================================================== *)

Section PublisherFailures.

Variable E : env.

(** Lines 167-200 when the post is committed: what is left is the work on
    the index. *)
Lemma git_push_callback_to_index w content metadata slug :
  publisher_reads E w content ->
  parse_frontmatter E content = inr metadata ->
  PyOps.get metadata "slug" (PStr "default-slug") = inr slug ->
  repo_create_file E (trace (at_report w)) (blogs_dir ++ py_str E slug ++ ".md")
                   ("Add " ++ py_str E slug ++ ".md") content = inr tt ->
  git_push_callback E w =
    update_index E metadata slug (log_event (post_event E slug content) (at_report w)).
Proof.
  intros Hread Hparse Hslug Hcreate.
  rewrite (git_push_callback_reads Hread), (@publish_eq E content metadata slug _ Hparse Hslug).
  unfold bind. rewrite push_post_eq, Hcreate. reflexivity.
Qed.

(** X4. Before the post is committed nothing is wrapped.  Without a token
    (unset or empty) the Publisher raises [ValueError] having only read the
    clock; when opening the repository raises, that very exception leaves
    [git_push_callback]; when the report file is missing it raises
    [FileNotFoundError] once the repository is open.  In all three cases no
    file has been created or fetched. *)
Theorem publisher_early_exits w :
  (getenv_GIT_TOKEN E = None \/ getenv_GIT_TOKEN E = Some "" ->
   git_push_callback E w =
     (inl (Raise ValueError "GIT_TOKEN not set"), log_event EvTime w))
  /\ (forall pat e,
        getenv_GIT_TOKEN E = Some pat -> pat <> "" ->
        github_get_repo E (trace w ++ [EvTime]) repo_name = inl e ->
        git_push_callback E w = (inl e, at_report w))
  /\ (forall pat,
        getenv_GIT_TOKEN E = Some pat -> pat <> "" ->
        github_get_repo E (trace w ++ [EvTime]) repo_name = inr tt ->
        report_md w = None ->
        git_push_callback E w =
          (inl (Raise FileNotFoundError "Report file missing"), at_report w)).
Proof.
  split; [|split].
  - intros [H|H]; unfold git_push_callback; run; rewrite H; reflexivity.
  - intros pat e Hp Hne Hrepo. unfold git_push_callback. run. rewrite Hp.
    destruct pat as [|c pat]; [congruence|]. run. rewrite Hrepo. reflexivity.
  - intros pat Hp Hne Hrepo Hr. unfold git_push_callback. run. rewrite Hp.
    destruct pat as [|c pat]; [congruence|]. run. rewrite Hrepo. run.
    rewrite Hr. reflexivity.
Qed.

(** X5. When creating the post's file raises (the path may exist already),
    the Publisher raises [RuntimeError] with [Push failed: ] before the
    text of that exception, and stops there: the index is neither fetched
    nor written. *)
Theorem failed_push_leaves_index_alone w content metadata slug e :
  publisher_reads E w content ->
  parse_frontmatter E content = inr metadata ->
  PyOps.get metadata "slug" (PStr "default-slug") = inr slug ->
  repo_create_file E (trace (at_report w)) (blogs_dir ++ py_str E slug ++ ".md")
                   ("Add " ++ py_str E slug ++ ".md") content = inl e ->
  git_push_callback E w =
    (inl (Raise RuntimeError ("Push failed: " ++ exn_str e)),
     log_event (post_event E slug content) (at_report w)).
Proof.
  intros Hread Hparse Hslug Hcreate.
  rewrite (git_push_callback_reads Hread), (@publish_eq E content metadata slug _ Hparse Hslug).
  unfold bind. rewrite push_post_eq, Hcreate. reflexivity.
Qed.

(** X6. When the frontmatter block loads as something that is no mapping
    (a sentence, a list, a number), the [get] of line 189 raises
    [AttributeError], which leaves [git_push_callback] as it is, before
    anything is committed. *)
Theorem frontmatter_must_be_a_mapping w content v :
  publisher_reads E w content ->
  parse_frontmatter E content = inr v ->
  (forall d, v <> PDict d) ->
  git_push_callback E w =
    (inl (Raise AttributeError
            ("'" ++ Py.type_name v ++ "' object has no attribute 'get'")),
     at_report w).
Proof.
  intros Hread Hparse Hv.
  rewrite (git_push_callback_reads Hread).
  unfold publish, bind, lift. rewrite Hparse.
  destruct v; try reflexivity. exfalso. exact (Hv d eq_refl).
Qed.

(** X7. A frontmatter block that loads as a falsy value (an empty block
    loads as [None]) counts as the empty mapping: the Publisher goes on
    exactly as for a report without frontmatter, with [default-slug.md] and
    the default entry. *)
Theorem falsy_frontmatter_is_empty_mapping w content frontmatter_end v :
  publisher_reads E w content ->
  PyStr.startswith content "---" = true ->
  PyStr.find_from "---" content 3 = Some frontmatter_end ->
  yaml_safe_load E (PyStr.strip (PyStr.slice content 3 frontmatter_end)) = inr v ->
  Py.truthy v = false ->
  parse_frontmatter E content = inr (PDict [])
  /\ git_push_callback E w =
       (push_post E "default-slug.md" content ;;;
        fetched <- fetch_index E ;;
        extend_index E (fst fetched) (snd fetched) default_entry) (at_report w).
Proof.
  intros Hread Hstart Hfind Hyaml Hfalsy.
  assert (Hm : parse_frontmatter E content = inr (PDict [])).
  { unfold parse_frontmatter. rewrite Hstart, Hfind, Hyaml, Hfalsy. reflexivity. }
  split; [exact Hm|].
  rewrite (git_push_callback_reads Hread).
  rewrite (@publish_eq E content (PDict []) (PStr "default-slug") _ Hm eq_refl).
  apply bind_ext. intros _ w'.
  unfold update_index, bind. rewrite fetch_index_eq.
  destruct (fetched_index E _) as [metadata_file metadata_json].
  reflexivity.
Qed.

(** X8. When fetching the index raises, for whatever reason, the Publisher
    takes it for absent: it creates the index file anew, holding the new
    entry alone. *)
Theorem unfetched_index_is_created w metadata slug e Y out :
  repo_get_contents E (trace w) metadata_path = inl e ->
  new_entry E metadata slug = inr Y ->
  json_dumps E (Py.obj [("metadata", PList [Y])]) = inr out ->
  exists rest,
    trace (snd (update_index E metadata slug w)) =
      (trace w ++ [ EvGetContents metadata_path;
                    EvCreateFile metadata_path "Create metadata" out ] ++ rest)%list
    /\ only_clock rest = true.
Proof.
  intros Hget Hentry Hout.
  unfold update_index. unfold bind at 1. rewrite fetch_index_eq, Hget.
  cbn [fetched_index]. unfold bind at 1, lift. rewrite Hentry.
  unfold extend_index. unfold bind at 1, lift.
  change (PyOps.getitem_append empty_index "metadata" Y)
    with (@inr exn pyval (Py.obj [("metadata", PList [Y])])).
  unfold store_index. run. rewrite Hout.
  destruct (repo_create_file E _ metadata_path "Create metadata" out) as [e'|u].
  - exists []. cbn [snd trace log_event]. rewrite <- !app_assoc. split; reflexivity.
  - exists [EvTime]. run. rewrite <- !app_assoc. split; reflexivity.
Qed.

End PublisherFailures.

(* ===================================================================== *)
(** ** The index entry and the append *)
(* ===================================================================== *)

Section IndexEntry.

Variable E : env.

Lemma lookup_update_same k v d old :
  Py.lookup k d = Some old -> Py.lookup k (Py.update k v d) = Some v.
Proof.
  induction d as [|[key x] r IH]; simpl; [discriminate|].
  destruct (Py.is_key k key) eqn:Hk; simpl; rewrite Hk; auto.
Qed.

Lemma lookup_update_other k k' v d :
  k' <> k -> Py.lookup k' (Py.update k v d) = Py.lookup k' d.
Proof.
  intros Hne. induction d as [|[key x] r IH]; simpl; [reflexivity|].
  destruct (Py.is_key k key) eqn:Hk; simpl.
  - destruct (Py.is_key k' key) eqn:Hk'; [|reflexivity].
    exfalso. destruct key; try discriminate.
    apply String.eqb_eq in Hk, Hk'. congruence.
  - destruct (Py.is_key k' key); [reflexivity|exact IH].
Qed.

Lemma update_keys k v d : map fst (Py.update k v d) = map fst d.
Proof.
  induction d as [|[key x] r IH]; simpl; [reflexivity|].
  destruct (Py.is_key k key); simpl; [reflexivity|]. rewrite IH. reflexivity.
Qed.

(** X9. The append of line 227 on any index object whose [metadata] is a
    list: that list gets the entry at its end, every other key of the
    object keeps its value, and the keys keep their order. *)
Theorem append_touches_metadata_only idx entries Y :
  Py.lookup "metadata" idx = Some (PList entries) ->
  exists idx',
    PyOps.getitem_append (PDict idx) "metadata" Y = inr (PDict idx')
    /\ Py.lookup "metadata" idx' = Some (PList (entries ++ [Y]))
    /\ (forall k, k <> "metadata" -> Py.lookup k idx' = Py.lookup k idx)
    /\ map fst idx' = map fst idx.
Proof.
  intros H. exists (Py.update "metadata" (PList (entries ++ [Y])) idx).
  split; [|split; [|split]].
  - unfold PyOps.getitem_append, PyOps.getitem. rewrite H. reflexivity.
  - exact (lookup_update_same _ _ _ H).
  - intros k Hk. apply lookup_update_other. exact Hk.
  - apply update_keys.
Qed.

(** X10. When the fetched index is a JSON object without a [metadata] key,
    line 227 raises [KeyError], which no handler wraps: the index has been
    fetched and is not written. *)
Theorem index_without_metadata_escapes w metadata slug f text idx Y :
  repo_get_contents E (trace w) metadata_path = inr f ->
  decoded f = inr text ->
  json_loads E text = inr (PDict idx) ->
  Py.lookup "metadata" idx = None ->
  new_entry E metadata slug = inr Y ->
  update_index E metadata slug w =
    (inl (Raise KeyError "'metadata'"), log_event (EvGetContents metadata_path) w).
Proof.
  intros Hget Hdec Hjson Hnone Hentry.
  unfold update_index. unfold bind at 1. rewrite fetch_index_eq, Hget.
  cbn [fetched_index]. rewrite Hdec, Hjson.
  unfold bind at 1, lift. rewrite Hentry.
  unfold extend_index, bind, lift, PyOps.getitem_append, PyOps.getitem.
  rewrite Hnone. reflexivity.
Qed.

(** X11. When the frontmatter has an [author] that is no mapping, deriving
    the entry raises [AttributeError], which no handler wraps: the index has
    been fetched by then and is not written. *)
Theorem author_must_be_a_mapping w d slug a :
  Py.lookup "author" d = Some a ->
  (forall m, a <> PDict m) ->
  new_entry E (PDict d) slug =
    inl (Raise AttributeError
           ("'" ++ Py.type_name a ++ "' object has no attribute 'get'"))
  /\ update_index E (PDict d) slug w =
       (inl (Raise AttributeError
               ("'" ++ Py.type_name a ++ "' object has no attribute 'get'")),
        log_event (EvGetContents metadata_path) w).
Proof.
  intros Ha Hnot.
  assert (He : new_entry E (PDict d) slug =
                 inl (Raise AttributeError
                        ("'" ++ Py.type_name a ++ "' object has no attribute 'get'"))).
  { assert (Hget : Py.get "author" (PDict []) d = a).
    { unfold Py.get. rewrite Ha. reflexivity. }
    unfold new_entry. cbn [PyOps.get rbind]. rewrite Hget.
    destruct a; try reflexivity. exfalso. exact (Hnot d0 eq_refl). }
  split; [exact He|].
  unfold update_index. unfold bind at 1. rewrite fetch_index_eq.
  destruct (fetched_index E _) as [metadata_file metadata_json].
  unfold bind, lift. rewrite He. reflexivity.
Qed.

(** When the frontmatter has no [author], or one that is a mapping, the
    entry is derived, whatever the slug, and it points at the post. *)
Lemma new_entry_points_at_post d slug content :
  Py.lookup "author" d = None \/ (exists a, Py.lookup "author" d = Some (PDict a)) ->
  exists Y outstatic,
    new_entry E (PDict d) slug = inr Y
    /\ PyOps.getitem Y "collection" = inr (PStr "blogs")
    /\ PyOps.getitem Y "slug" = inr slug
    /\ PyOps.getitem Y "__outstatic" = inr outstatic
    /\ post_event E slug content =
         EvCreateFile (blogs_dir ++ py_str E slug ++ ".md")
                      ("Add " ++ py_str E slug ++ ".md") content
    /\ PyOps.getitem Y "path" = inr (PStr (blogs_dir ++ py_str E slug ++ ".md"))
    /\ PyOps.getitem outstatic "path" = inr (PStr (blogs_dir ++ py_str E slug ++ ".md")).
Proof.
  intros H.
  assert (Ha : exists a, Py.get "author" (PDict []) d = PDict a).
  { unfold Py.get. destruct H as [->|[a ->]]; eauto. }
  destruct Ha as [a Ha].
  unfold new_entry. cbn [PyOps.get rbind]. rewrite Ha. cbn [PyOps.get rbind].
  eexists _, _. repeat split.
Qed.

(** X12. In a run of the Publisher whose frontmatter has no [author], or one
    that is a mapping, and whose commit of the post goes through, the entry
    is derived from the frontmatter and the slug the post was committed
    under, and it points at the post: its [slug] is that slug, its [path]
    and the [path] under [__outstatic] are both the path of the commit, and
    its [collection] is [blogs]; and it is this entry, appended to the index
    that was fetched, that the run stores. *)
Theorem entry_points_at_the_post w content d slug metadata_file j :
  publisher_reads E w content ->
  parse_frontmatter E content = inr (PDict d) ->
  PyOps.get (PDict d) "slug" (PStr "default-slug") = inr slug ->
  Py.lookup "author" d = None \/ (exists a, Py.lookup "author" d = Some (PDict a)) ->
  repo_create_file E (trace (at_report w)) (blogs_dir ++ py_str E slug ++ ".md")
                   ("Add " ++ py_str E slug ++ ".md") content = inr tt ->
  fetched_index E
    (repo_get_contents E
       (trace (log_event (post_event E slug content) (at_report w))) metadata_path)
    = (metadata_file, j) ->
  exists Y outstatic,
    new_entry E (PDict d) slug = inr Y
    /\ PyOps.getitem Y "collection" = inr (PStr "blogs")
    /\ PyOps.getitem Y "slug" = inr slug
    /\ PyOps.getitem Y "__outstatic" = inr outstatic
    /\ PyOps.getitem Y "path" = inr (PStr (blogs_dir ++ py_str E slug ++ ".md"))
    /\ PyOps.getitem outstatic "path" = inr (PStr (blogs_dir ++ py_str E slug ++ ".md"))
    /\ forall j' out,
         PyOps.getitem_append j "metadata" Y = inr j' ->
         json_dumps E j' = inr out ->
         exists rest,
           trace (snd (git_push_callback E w)) =
             (trace w ++ [ EvTime; EvGetRepo repo_name;
                           EvCreateFile (blogs_dir ++ py_str E slug ++ ".md")
                                        ("Add " ++ py_str E slug ++ ".md") content;
                           EvGetContents metadata_path;
                           store_event metadata_file out ] ++ rest)%list
           /\ only_clock rest = true.
Proof.
  intros Hread Hparse Hslug Hauthor Hcreate Hf.
  destruct (@new_entry_points_at_post d slug content Hauthor)
    as (Y & outstatic & He & Hc & Hs & Ho & _ & Hp & Hop).
  exists Y, outstatic.
  repeat (split; [assumption|]).
  intros j' out Ha Hd.
  exact (@git_push_callback_stores E w content (PDict d) slug metadata_file j Y j' out
           Hread Hparse Hslug Hcreate Hf He Ha Hd).
Qed.

End IndexEntry.

(* ===================================================================== *)
(** ** Failures late in the chain *)
(* ===================================================================== *)

Section LateFailures.

Variable E : env.

(** X13. Once the index has been fetched and the entry appended in memory,
    a failure to print the index or to update the file is raised as
    [RuntimeError] with [Metadata update failed: ] before its text.  When
    printing fails nothing is sent; when the update fails it is the last
    call made: nothing takes back the post committed before. *)
Theorem failed_index_write_is_wrapped w metadata slug f Y j' :
  repo_get_contents E (trace w) metadata_path = inr f ->
  new_entry E metadata slug = inr Y ->
  PyOps.getitem_append
    (snd (fetched_index E (repo_get_contents E (trace w) metadata_path)))
    "metadata" Y = inr j' ->
  (forall e,
      json_dumps E j' = inl e ->
      update_index E metadata slug w =
        (inl (Raise RuntimeError ("Metadata update failed: " ++ exn_str e)),
         log_event (EvGetContents metadata_path) w))
  /\ (forall out e,
        json_dumps E j' = inr out ->
        repo_update_file E (trace w ++ [EvGetContents metadata_path])
                         metadata_path "Update metadata" out (sha f) = inl e ->
        update_index E metadata slug w =
          (inl (Raise RuntimeError ("Metadata update failed: " ++ exn_str e)),
           log_event (EvUpdateFile metadata_path "Update metadata" out (sha f))
                     (log_event (EvGetContents metadata_path) w))).
Proof.
  intros Hget Hentry Happend.
  assert (Hrun : update_index E metadata slug w =
                   (store_index E (Some f) j' ;;; now_time E ;;;
                    ret "Successfully pushed blog post")
                     (log_event (EvGetContents metadata_path) w)).
  { unfold update_index. unfold bind at 1. rewrite fetch_index_eq.
    rewrite Hget in *. cbn [fetched_index snd] in *.
    unfold bind at 1, lift. rewrite Hentry.
    unfold extend_index. unfold bind at 1, lift. rewrite Happend. reflexivity. }
  rewrite Hrun. split.
  - intros e Hd. unfold store_index. run. rewrite Hd. reflexivity.
  - intros out e Hd Hu. unfold store_index. run. rewrite Hd, Hu. reflexivity.
Qed.

(** X14. The Image Producer stops at the first step that fails.  When the
    image call raises, or answers without a URL, nothing is downloaded and
    nothing is uploaded; when the download raises, nothing is uploaded.  The
    placeholder is returned each time. *)
Theorem image_failure_stops_the_chain image_prompt title w :
  (forall e,
      images_generate E (trace w ++ [EvTime]) image_prompt = inl e ->
      generate_and_upload_image E image_prompt title w =
        (inr placeholder_url,
         log_event (EvImage "dall-e-3" image_prompt "1024x1024" "standard" 1)
                   (log_event EvTime w)))
  /\ (images_generate E (trace w ++ [EvTime]) image_prompt = inr None ->
      generate_and_upload_image E image_prompt title w =
        (inr placeholder_url,
         log_event (EvImage "dall-e-3" image_prompt "1024x1024" "standard" 1)
                   (log_event EvTime w)))
  /\ (forall url e,
        images_generate E (trace w ++ [EvTime]) image_prompt = inr (Some url) ->
        requests_get E
          (trace w ++ [EvTime; EvImage "dall-e-3" image_prompt "1024x1024" "standard" 1])
          url = inl e ->
        generate_and_upload_image E image_prompt title w =
          (inr placeholder_url,
           log_event (EvHttpGet url 10)
             (log_event (EvImage "dall-e-3" image_prompt "1024x1024" "standard" 1)
                        (log_event EvTime w)))).
Proof.
  split; [|split].
  - intros e H. unfold generate_and_upload_image. run. rewrite H. reflexivity.
  - intros H. unfold generate_and_upload_image. run. rewrite H. reflexivity.
  - intros url e H Hget. unfold generate_and_upload_image. run. rewrite H. run.
    rewrite <- app_assoc. cbn [app]. rewrite Hget. reflexivity.
Qed.

End LateFailures.

(* ===================================================================== *)
(** ** The storage key and the text of the report *)
(* ===================================================================== *)

Module PyStrChars.
Import PyStr.

Lemma all_chars_app p s t :
  all_chars p (s ++ t) = all_chars p s && all_chars p t.
Proof.
  induction s as [|c r IH]; simpl; [reflexivity|].
  rewrite IH. apply andb_assoc.
Qed.

Lemma all_chars_map p f s :
  (forall c, p (f c) = true) -> all_chars p (map_chars f s) = true.
Proof.
  intros H. induction s as [|c r IH]; simpl; [reflexivity|].
  rewrite H, IH. reflexivity.
Qed.

Lemma all_chars_map_keeps p f s :
  (forall c, p c = true -> p (f c) = true) ->
  all_chars p s = true -> all_chars p (map_chars f s) = true.
Proof.
  intros H. induction s as [|c r IH]; simpl; [reflexivity|].
  intros Hs. apply andb_true_iff in Hs as [Hc Hr].
  rewrite (H c Hc), (IH Hr). reflexivity.
Qed.

Lemma lower_char_not_upper c : between 65 90 (code (lower_char c)) = false.
Proof. destruct c as [[] [] [] [] [] [] [] []]; reflexivity. Qed.

Lemma replace_space_is_key_char c :
  between 65 90 (code c) = false ->
  key_char (if Ascii.eqb c " " then "-"%char else c) = true.
Proof.
  intros H. unfold key_char.
  destruct (Ascii.eqb c " ") eqn:Hc; [reflexivity|].
  rewrite Hc, H. reflexivity.
Qed.

Lemma key_chars_of_title title :
  all_chars key_char (replace_char " " "-" (lower title)) = true.
Proof.
  unfold replace_char, lower.
  induction title as [|c r IH]; simpl; [reflexivity|].
  rewrite IH, (replace_space_is_key_char _ (lower_char_not_upper c)). reflexivity.
Qed.

Lemma key_chars_of_uint d : all_chars key_char (NilEmpty.string_of_uint d) = true.
Proof. induction d; simpl; auto. Qed.

Lemma key_chars_of_Z z : all_chars key_char (of_Z z) = true.
Proof.
  unfold of_Z, NilZero.string_of_int, NilZero.string_of_uint.
  destruct (Z.to_int z) as [d|d]; destruct d; simpl;
    try reflexivity; apply key_chars_of_uint.
Qed.

(** *** Line endings *)

Lemma universal_newlines_no_CR_aux s :
  all_chars not_CR (universal_newlines s) = true
  /\ forall c, all_chars not_CR (universal_newlines (String c s)) = true.
Proof.
  induction s as [|d r [IH1 IH2]].
  - split; [reflexivity|].
    intros c. destruct c as [[] [] [] [] [] [] [] []]; reflexivity.
  - split; [apply IH2|].
    intros c. specialize (IH2 d).
    change (universal_newlines (String c (String d r)))
      with (if (code c =? 13)%nat
            then if (code d =? 10)%nat
                 then String d (universal_newlines r)
                 else String (ascii_of_nat 10) (universal_newlines (String d r))
            else String c (universal_newlines (String d r))).
    destruct (code c =? 13)%nat eqn:Hc.
    + destruct (code d =? 10)%nat eqn:Hd.
      * cbn [all_chars]. rewrite IH1.
        replace (not_CR d) with true; [reflexivity|].
        apply Nat.eqb_eq in Hd.
        destruct d as [[] [] [] [] [] [] [] []]; try reflexivity; discriminate.
      * cbn [all_chars]. rewrite IH2. reflexivity.
    + cbn [all_chars]. rewrite IH2.
      replace (not_CR c) with true; [reflexivity|].
      destruct c as [[] [] [] [] [] [] [] []]; try reflexivity; discriminate.
Qed.

Lemma all_chars_lstrip p s : all_chars p s = true -> all_chars p (lstrip s) = true.
Proof.
  induction s as [|c r IH]; simpl; [reflexivity|].
  intros H. destruct (isspace c); [|exact H].
  apply andb_true_iff in H as [_ Hr]. exact (IH Hr).
Qed.

Lemma all_chars_rstrip p s : all_chars p s = true -> all_chars p (rstrip s) = true.
Proof.
  induction s as [|c r IH]; simpl; [reflexivity|].
  intros H. apply andb_true_iff in H as [Hc Hr]. specialize (IH Hr).
  destruct (rstrip r) as [|d r'].
  - destruct (isspace c); [reflexivity|]. simpl. rewrite Hc. reflexivity.
  - change (all_chars p (String c (String d r')))
      with (p c && all_chars p (String d r')).
    rewrite Hc, IH. reflexivity.
Qed.

Lemma all_chars_strip p s : all_chars p s = true -> all_chars p (strip s) = true.
Proof. intros H. apply all_chars_rstrip, all_chars_lstrip, H. Qed.

End PyStrChars.

Section KeysAndText.

Variable E : env.

(** X15. The name under which the image is uploaded has no space and no
    capital letter [A]..[Z] in it, whatever the title and the time: the
    title is lowered and its spaces become hyphens. *)
Theorem blob_filename_is_a_key title t :
  all_chars key_char (blob_filename title t) = true.
Proof.
  unfold blob_filename.
  rewrite !PyStrChars.all_chars_app.
  rewrite PyStrChars.key_chars_of_title, PyStrChars.key_chars_of_Z.
  reflexivity.
Qed.

Lemma nth_error_after (A : Type) (l r : list A) n :
  nth_error (l ++ r) (length l + n) = nth_error r n.
Proof.
  rewrite nth_error_app2 by lia.
  replace (length l + n - length l) with n by lia. reflexivity.
Qed.

(** The third call of [git_push_callback], when there is one, is the commit
    of the post, and what it commits is the report as read in text mode and
    stripped (lines 181-182, 194): the runs that stop earlier make fewer
    than three calls. *)
Lemma git_push_callback_commit w e :
  nth_error (trace (snd (git_push_callback E w))) (length (trace w) + 2) = Some e ->
  exists text metadata slug,
    report_md w = Some text
    /\ parse_frontmatter E (PyStr.strip (PyStr.universal_newlines text)) = inr metadata
    /\ PyOps.get metadata "slug" (PStr "default-slug") = inr slug
    /\ e = post_event E slug (PyStr.strip (PyStr.universal_newlines text)).
Proof.
  destruct (getenv_GIT_TOKEN E) as [[|c pat]|] eqn:Hp.
  1, 3: unfold git_push_callback; run; rewrite Hp; unfold log_event;
        cbn [snd trace]; rewrite nth_error_after; discriminate.
  destruct (github_get_repo E (trace w ++ [EvTime]) repo_name) as [x|[]] eqn:Hrepo.
  { unfold git_push_callback; run; rewrite Hp; run; rewrite Hrepo.
    unfold log_event; cbn [snd trace].
    rewrite <- ?app_assoc, nth_error_after. discriminate. }
  destruct (report_md w) as [text|] eqn:Hr.
  2: { unfold git_push_callback; run; rewrite Hp; run; rewrite Hrepo; run; rewrite Hr.
       unfold log_event; cbn [option_map snd trace].
       rewrite <- ?app_assoc, nth_error_after. discriminate. }
  assert (Hread : publisher_reads E w (PyStr.strip (PyStr.universal_newlines text))).
  { split; [exists (String c pat); split; [exact Hp|discriminate]|].
    split; [exact Hrepo|]. exists text. split; [exact Hr|reflexivity]. }
  rewrite (git_push_callback_reads Hread).
  destruct (parse_frontmatter E (PyStr.strip (PyStr.universal_newlines text)))
    as [x|metadata] eqn:Hparse.
  { unfold publish. unfold bind at 1, lift. rewrite Hparse.
    unfold at_report, log_event. cbn [snd trace].
    rewrite <- ?app_assoc, nth_error_after. discriminate. }
  destruct (PyOps.get metadata "slug" (PStr "default-slug")) as [x|slug] eqn:Hslug.
  { unfold publish. unfold bind at 1, lift. rewrite Hparse.
    unfold bind at 1. rewrite Hslug.
    unfold at_report, log_event. cbn [snd trace].
    rewrite <- ?app_assoc, nth_error_after. discriminate. }
  destruct (@publish_trace E _ metadata slug (at_report w) Hparse Hslug)
    as [rest [Ht _]].
  rewrite Ht. unfold at_report, log_event. cbn [trace].
  rewrite <- ?app_assoc. rewrite nth_error_after.
  cbn [app nth_error]. intros H. injection H as <-.
  exists text, metadata, slug. repeat split; assumption.
Qed.

(** X16. The text that [git_push_callback] commits as the post is the report
    as read in text mode and stripped, and it has no carriage return in it:
    reading in text mode turns every line ending into a line feed, and
    stripping adds nothing.  The commit of the post is the third call of a
    run, after the clock and the repository. *)
Theorem published_text_has_no_carriage_return w path message content :
  nth_error (trace (snd (git_push_callback E w))) (length (trace w) + 2)
    = Some (EvCreateFile path message content) ->
  (exists text,
      report_md w = Some text
      /\ fst (read_report w) = inr (Some (PyStr.universal_newlines text))
      /\ content = PyStr.strip (PyStr.universal_newlines text))
  /\ all_chars not_CR content = true.
Proof.
  intros H.
  destruct (git_push_callback_commit _ H) as (text & metadata & slug & Hr & _ & _ & He).
  unfold post_event in He. injection He as _ _ ->.
  split.
  - exists text. split; [exact Hr|]. split; [|reflexivity].
    unfold read_report. cbn [fst]. rewrite Hr. reflexivity.
  - apply PyStrChars.all_chars_strip.
    apply PyStrChars.universal_newlines_no_CR_aux.
Qed.

End KeysAndText.

(* ===================================================================== *)
(** ** Where the frontmatter ends *)
(* ===================================================================== *)

Module PyStrSearch.
Import PyStr.

Lemma drop_drop a : forall b s, drop a (drop b s) = drop (b + a) s.
Proof.
  intros b. induction b as [|b IH]; intros s; [reflexivity|].
  destruct s as [|c r]; simpl.
  - destruct a; reflexivity.
  - apply IH.
Qed.

Lemma find_none sub : forall s j,
  find sub s = None -> j <= String.length s -> String.prefix sub (drop j s) = false.
Proof.
  induction s as [|c r IH]; intros j; rewrite PyStrFacts.find_eq.
  - destruct (String.prefix sub "") eqn:Hp; [discriminate|].
    intros _ Hj. simpl in Hj. replace j with 0 by lia. exact Hp.
  - destruct (String.prefix sub (String c r)) eqn:Hp; [discriminate|].
    destruct (find sub r) eqn:Hf; simpl; [discriminate|].
    intros _ Hj. destruct j as [|j]; [exact Hp|].
    simpl in *. apply IH; [reflexivity|lia].
Qed.

Lemma find_least sub : forall s i j,
  find sub s = Some i -> j < i -> String.prefix sub (drop j s) = false.
Proof.
  induction s as [|c r IH]; intros i j; rewrite PyStrFacts.find_eq.
  - destruct (String.prefix sub ""); [|discriminate].
    intros H. injection H as <-. lia.
  - destruct (String.prefix sub (String c r)) eqn:Hp.
    + intros H. injection H as <-. lia.
    + destruct (find sub r) as [k|] eqn:Hf; simpl; [|discriminate].
      intros H Hj. injection H as <-.
      destruct j as [|j]; [exact Hp|].
      simpl. apply (IH k); [reflexivity|lia].
Qed.

Lemma find_prefix sub : forall s i,
  find sub s = Some i -> String.prefix sub (drop i s) = true.
Proof.
  induction s as [|c r IH]; intros i; rewrite PyStrFacts.find_eq.
  - destruct (String.prefix sub "") eqn:Hp; [|discriminate].
    intros H. injection H as <-. exact Hp.
  - destruct (String.prefix sub (String c r)) eqn:Hp.
    + intros H. injection H as <-. exact Hp.
    + destruct (find sub r) as [k|] eqn:Hf; simpl; [|discriminate].
      intros H. injection H as <-. simpl. apply IH. reflexivity.
Qed.

(** The search stops at the first place where [sub] stands. *)
Lemma find_first sub s e :
  e <= String.length s ->
  String.prefix sub (drop e s) = true ->
  (forall j, j < e -> String.prefix sub (drop j s) = false) ->
  find sub s = Some e.
Proof.
  intros He Hp Hbefore.
  destruct (find sub s) as [i|] eqn:Hf.
  - destruct (Nat.lt_trichotomy i e) as [Hlt|[->|Hgt]]; [|reflexivity|].
    + apply find_prefix in Hf. rewrite (Hbefore i Hlt) in Hf. discriminate.
    + rewrite (find_least _ _ Hf Hgt) in Hp. discriminate.
  - rewrite (find_none _ _ Hf He) in Hp. discriminate.
Qed.

Lemma length_drop k : forall s, String.length (drop k s) = String.length s - k.
Proof.
  induction k as [|k IH]; intros s; simpl; [lia|].
  destruct s as [|c r]; simpl; [reflexivity|apply IH].
Qed.

Lemma find_from_first sub s start e :
  start <= e -> e <= String.length s ->
  String.prefix sub (drop e s) = true ->
  (forall j, start <= j -> j < e -> String.prefix sub (drop j s) = false) ->
  find_from sub s start = Some e.
Proof.
  intros Hse He Hp Hbefore. unfold find_from.
  replace (start <=? String.length s)%nat with true
    by (symmetry; apply Nat.leb_le; lia).
  rewrite (@find_first sub (drop start s) (e - start)).
  - simpl. f_equal. lia.
  - rewrite length_drop. lia.
  - rewrite drop_drop. replace (start + (e - start)) with e by lia. exact Hp.
  - intros j Hj. rewrite drop_drop. apply Hbefore; lia.
Qed.

Lemma substring_past_end : forall s j m,
  String.length s <= j -> String.substring j m s = "".
Proof.
  induction s as [|c r IH]; intros j m Hj.
  - destruct j, m; reflexivity.
  - destruct j as [|j]; simpl in Hj; [lia|].
    simpl. apply IH. lia.
Qed.

(** [s[j:j+n] == sub], for a [sub] of [n > 0] characters, says that [sub]
    stands at [j]. *)
Lemma slice_is_prefix sub s j :
  sub <> "" ->
  (slice s j (j + String.length sub) = sub
   <-> j <= String.length s /\ String.prefix sub (drop j s) = true).
Proof.
  intros Hne. unfold slice.
  replace (j + String.length sub - j) with (String.length sub) by lia.
  split.
  - intros H.
    assert (Hj : j <= String.length s).
    { destruct (Nat.le_gt_cases j (String.length s)) as [Hle|Hgt]; [exact Hle|].
      rewrite substring_past_end in H by lia. congruence. }
    split; [exact Hj|].
    apply String.prefix_correct.
    rewrite (PyStrFacts.drop_substring _ 0 _ Hj), Nat.add_0_r. exact H.
  - intros [Hj Hp]. apply String.prefix_correct in Hp.
    rewrite (PyStrFacts.drop_substring _ 0 _ Hj), Nat.add_0_r in Hp. exact Hp.
Qed.

End PyStrSearch.

Section FrontmatterEnd.

Variable E : env.

(** X17. The frontmatter is the text between the opening delimiter and the
    first delimiter after it: when the report starts with the delimiter and
    [e] is the lowest position from 3 on at which the delimiter stands, what
    is loaded is [content[3:e]], stripped; a delimiter further down (a rule
    in the body) plays no part. *)
Theorem frontmatter_ends_at_first_delimiter content e :
  PyStr.startswith content "---" = true ->
  3 <= e ->
  PyStr.slice content e (e + 3) = "---" ->
  (forall j, 3 <= j -> j < e -> PyStr.slice content j (j + 3) <> "---") ->
  parse_frontmatter E content =
    match yaml_safe_load E (PyStr.strip (PyStr.slice content 3 e)) with
    | inl x => inl x
    | inr v => inr (if Py.truthy v then v else PDict [])
    end.
Proof.
  intros Hstart He Hat Hbefore.
  assert (Hne : "---" <> "") by discriminate.
  apply (PyStrSearch.slice_is_prefix content e Hne) in Hat as [Hlen Hp].
  unfold parse_frontmatter. rewrite Hstart.
  rewrite (@PyStrSearch.find_from_first "---" content 3 e He Hlen Hp).
  - reflexivity.
  - intros j Hj Hje.
    destruct (String.prefix "---" (PyStr.drop j content)) eqn:Hpj; [|reflexivity].
    exfalso. apply (Hbefore j Hj Hje).
    apply (PyStrSearch.slice_is_prefix content j Hne). split; [lia|exact Hpj].
Qed.

End FrontmatterEnd.

(* ===================================================================== *)
(** ** Failures seen from the route *)
(* ===================================================================== *)

Section RouteFailures.

Variable E : env.

(** X18. When the first call of the pipeline, the one for the title,
    raises, [GET /run-agent] answers 500 with [Title generation failed: ]
    and the text of the exception as [detail], and the pipeline has made no
    other call: no research, no image, no commit. *)
Theorem failed_title_call_answers_500 w e :
  chat_completions_create E (trace w ++ [EvTime; EvRandom; EvTime])
    (title_prompt (drawn E (log_event EvTime w))) 50 = inl e ->
  serve (trigger_event E) w =
    ({| status := 500;
        body := Py.obj [("detail",
                         PStr ("Title generation failed: " ++ exn_str e))] |},
     {| trace := trace w ++ [ EvTime; EvRandom; EvTime;
                              EvChat "gpt-4o-mini"
                                     (title_prompt (drawn E (log_event EvTime w))) 50 ];
        report_md := report_md w |}).
Proof.
  intros H.
  unfold serve, trigger_event, run_agent, select_category_and_title, choice.
  run. unfold drawn in H. cbn [trace log_event] in H.
  rewrite <- !app_assoc. cbn [app]. rewrite H. run.
  unfold log_event. cbn [trace report_md].
  rewrite <- ?app_assoc. reflexivity.
Qed.

(** The model always answers with text that is not blank. *)
Hypothesis Hchat : forall h prompt n,
    exists text, chat_completions_create E h prompt n = inr (Some text)
                 /\ PyStr.all_space text = false.

Lemma responsive_reply A prompt max_tokens msg (g : string -> A)
      (h : exn -> M A) w :
  exists text,
    try_except
      (response <- chat E prompt max_tokens ;;
       content <- content_strip response ;;
       if is_empty content then raise (Raise ValueError msg)
       else now_time E ;;; ret (g content))
      h w
    = (inr (g (PyStr.strip text)),
       log_event EvTime (log_event (EvChat "gpt-4o-mini" prompt max_tokens) w))
    /\ chat_completions_create E (trace w) prompt max_tokens = inr (Some text)
    /\ PyStr.all_space text = false.
Proof.
  destruct (Hchat (trace w) prompt max_tokens) as [text [Hc Hb]].
  exists text. split; [|split; assumption].
  run. rewrite Hc. rewrite PyStrFacts.is_empty_strip, Hb. reflexivity.
Qed.

Lemma responsive_select w :
  exists text w',
    select_category_and_title E w = (inr (drawn E w, PyStr.strip text), w')
    /\ PyStr.all_space text = false.
Proof.
  unfold select_category_and_title.
  unfold bind at 1. unfold choice, bind at 1, call, ret.
  unfold bind at 1. unfold now_time at 1, call.
  match goal with
  | |- context [try_except ?m ?h ?w0] =>
      destruct (@responsive_reply _ (title_prompt (drawn E w)) 50
                  "Empty title response" (fun t => (drawn E w, t)) h w0)
        as [text [Hrun [_ Hb]]]
  end.
  exists text. eexists. split; [exact Hrun|exact Hb].
Qed.

Lemma responsive_research topic current_year w :
  PyStr.all_space topic = false ->
  PyStr.isdigit current_year = true ->
  exists r w', research_topic E topic current_year w = (inr r, w').
Proof.
  intros Ht Hy. unfold research_topic.
  rewrite topic_guard, Ht, Hy. cbn [negb].
  unfold bind at 1. unfold now_time at 1, call.
  match goal with
  | |- context [try_except ?m ?h ?w0] =>
      destruct (@responsive_reply _ (research_prompt topic current_year) 300
                  "Empty OpenAI response" (fun t => t) h w0)
        as [text [Hrun _]]
  end.
  eexists _, _. exact Hrun.
Qed.

Lemma responsive_image_prompt topic title research_output w :
  exists r w', generate_image_prompt E topic title research_output w = (inr r, w').
Proof.
  unfold generate_image_prompt.
  unfold bind at 1. unfold now_time at 1, call.
  match goal with
  | |- context [try_except ?m ?h ?w0] =>
      destruct (@responsive_reply _
                  (image_prompt_prompt topic title research_output) 50
                  "Empty image prompt response" (fun t => t) h w0)
        as [text [Hrun _]]
  end.
  eexists _, _. exact Hrun.
Qed.

Lemma responsive_blog topic research_output name picture cover date w :
  exists text w' h prompt,
    write_blog_post E topic research_output name picture cover date w
      = (inr (PyStr.strip text), w')
    /\ report_md w' = report_md w
    /\ chat_completions_create E h prompt 600 = inr (Some text).
Proof.
  unfold write_blog_post.
  unfold bind at 1. unfold now_time at 1, call.
  match goal with
  | |- context [try_except ?m ?h ?w0] =>
      destruct (@responsive_reply _
                  (blog_prompt topic research_output name picture cover date) 600
                  "Empty OpenAI response" (fun t => t) h w0)
        as [text [Hrun [Hc _]]]
  end.
  eexists text, _, _, _. split; [exact Hrun|]. split; [reflexivity|exact Hc].
Qed.

(** With such a model the pipeline always gets to the Publisher, whatever
    the image service and the blob storage do, with the post in the report;
    and what [run_agent] returns or raises is decided by the Publisher. *)
Lemma run_agent_reaches_publisher w :
  exists w5 h prompt text,
    chat_completions_create E h prompt 600 = inr (Some text)
    /\ report_md w5 = Some (PyStr.strip text)
    /\ run_agent E w =
         match git_push_callback E w5 with
         | (inl e, w6) => (inl (Raise (HTTPException 500) (exn_str e)), w6)
         | (inr r, w6) =>
             (inr (Py.obj [ ("result", PStr r);
                            ("execution_time",
                             PFloat (PrimFloat.sub (time_time E (trace w6))
                                                   (time_time E (trace w)))) ]),
              log_event EvTime w6)
         end.
Proof.
  unfold run_agent.
  unfold bind at 1. unfold now_time at 1, call.
  unfold try_except.
  unfold bind at 1.
  destruct (responsive_select (log_event EvTime w)) as [title [w1 [Hs Hb]]].
  rewrite Hs.
  unfold bind at 1. unfold now_datetime at 1, call.
  unfold bind at 1. unfold now_datetime at 1, call.
  unfold bind at 1.
  match goal with
  | |- context [research_topic E ?topic ?y ?w0] =>
      destruct (@responsive_research topic y w0
                  (PyStrFacts.strip_not_blank _ (PyStrFacts.strip_not_blank _ Hb))
                  (PyStrFacts.isdigit_of_N _))
        as [research_output [w2 Hres]]
  end.
  rewrite Hres.
  unfold bind at 1.
  match goal with
  | |- context [generate_image_prompt E ?a ?b ?c ?w0] =>
      destruct (@responsive_image_prompt a b c w0) as [image_prompt [w3 Hip]]
  end.
  rewrite Hip.
  unfold bind at 1.
  match goal with
  | |- context [generate_and_upload_image E ?a ?b ?w0] =>
      destruct (@generate_and_upload_image_ok E a b w0) as [cover [w4 Him]]
  end.
  rewrite Him.
  unfold bind at 1.
  match goal with
  | |- context [write_blog_post E ?a ?b ?c ?d ?e ?f ?w0] =>
      destruct (@responsive_blog a b c d e f w0)
        as [post [w5 [h [prompt [Hpost [_ Hc]]]]]]
  end.
  rewrite Hpost.
  unfold bind at 1. unfold write_report at 1.
  unfold bind at 1. unfold now_time at 1, call.
  unfold bind at 1.
  match goal with
  | |- context [git_push_callback E ?w0] =>
      exists w0, h, prompt, post; split; [exact Hc|]; split; [reflexivity|];
      destruct (git_push_callback E w0) as [[e'|r] w6]
  end; reflexivity.
Qed.

(** The token is set and the repository opens, but creating a file fails. *)
Hypothesis Htoken : exists pat, getenv_GIT_TOKEN E = Some pat /\ pat <> "".

Hypothesis Hrepo : forall h, github_get_repo E h repo_name = inr tt.

Variable refusal : exn.

Hypothesis Hcreate : forall h path message content,
    repo_create_file E h path message content = inl refusal.

(** The post the model writes has a frontmatter the Publisher can read a
    slug from. *)
Hypothesis Hpost : forall h prompt text,
    chat_completions_create E h prompt 600 = inr (Some text) ->
    exists metadata slug,
      parse_frontmatter E (PyStr.strip (PyStr.universal_newlines (PyStr.strip text)))
        = inr metadata
      /\ PyOps.get metadata "slug" (PStr "default-slug") = inr slug.

(** X19. When the model answers every call with text, from a post of which
    the Publisher reads a slug, and the repository opens but refuses to
    create the post's file, [GET /run-agent] answers 500 with
    [Push failed: ] and the text of the refusal as [detail]; what the image
    service does makes no difference. *)
Theorem refused_commit_answers_500 w :
  fst (serve (trigger_event E) w) =
    {| status := 500;
       body := Py.obj [("detail", PStr ("Push failed: " ++ exn_str refusal))] |}.
Proof.
  destruct (run_agent_reaches_publisher w)
    as (w5 & h & prompt & text & Hc & Hreport & Hrun).
  destruct (Hpost _ _ Hc) as (metadata & slug & Hparse & Hslug).
  assert (Hread : publisher_reads E w5
                    (PyStr.strip (PyStr.universal_newlines (PyStr.strip text)))).
  { split; [exact Htoken|]. split; [apply Hrepo|].
    exists (PyStr.strip text). split; [exact Hreport|reflexivity]. }
  assert (Hgit : fst (git_push_callback E w5) =
                   inl (Raise RuntimeError ("Push failed: " ++ exn_str refusal))).
  { rewrite (git_push_callback_reads Hread).
    rewrite (@publish_eq E _ metadata slug _ Hparse Hslug).
    unfold bind. rewrite push_post_eq, Hcreate. reflexivity. }
  unfold serve, trigger_event, bind. rewrite Hrun.
  destruct (git_push_callback E w5) as [[e'|r] w6]; cbn [fst] in Hgit.
  - injection Hgit as ->. reflexivity.
  - discriminate.
Qed.

End RouteFailures.

(* ===================================================================== *)
(** ** The properties above on concrete worlds *)
(* ===================================================================== *)

Lemma failed_push_leaves_index_alone_witness :
  git_push_callback Edge.refusing (Demo.written Demo.post) =
    (inl (Raise RuntimeError
            "Push failed: 422 Invalid request: sha was not supplied"),
     log_event (EvCreateFile "outstatic/content/blogs/my-post.md" "Add my-post.md"
                             Demo.post)
               (at_report (Demo.written Demo.post))).
Proof.
  apply (@failed_push_leaves_index_alone Edge.refusing (Demo.written Demo.post)
           Demo.post Demo.frontmatter (PStr "my-post") Edge.refusal).
  - reads.
  - reflexivity.
  - reflexivity.
  - reflexivity.
Defined.

Lemma frontmatter_must_be_a_mapping_witness :
  git_push_callback Edge.E (Demo.written Edge.sentence_post) =
    (inl (Raise AttributeError "'str' object has no attribute 'get'"),
     at_report (Demo.written Edge.sentence_post)).
Proof.
  apply (@frontmatter_must_be_a_mapping Edge.E (Demo.written Edge.sentence_post)
           Edge.sentence_post (PStr "just a sentence")).
  - reads.
  - reflexivity.
  - discriminate.
Defined.

Lemma falsy_frontmatter_is_empty_mapping_witness :
  parse_frontmatter Edge.E Edge.empty_block_post = inr (PDict [])
  /\ git_push_callback Edge.E (Demo.written Edge.empty_block_post) =
       (push_post Edge.E "default-slug.md" Edge.empty_block_post ;;;
        fetched <- fetch_index Edge.E ;;
        extend_index Edge.E (fst fetched) (snd fetched) default_entry)
         (at_report (Demo.written Edge.empty_block_post)).
Proof.
  apply (@falsy_frontmatter_is_empty_mapping Edge.E
           (Demo.written Edge.empty_block_post) Edge.empty_block_post 4 PNone).
  - reads.
  - reflexivity.
  - reflexivity.
  - reflexivity.
  - reflexivity.
Defined.

Lemma unfetched_index_is_created_witness :
  exists rest,
    trace (snd (update_index Edge.first_run Demo.frontmatter (PStr "my-post")
                             Demo.start)) =
      ([ EvGetContents metadata_path;
         EvCreateFile metadata_path "Create metadata"
           (Demo.text_of (Py.obj [("metadata", PList [Demo.my_entry])])) ]
       ++ rest)%list
    /\ only_clock rest = true.
Proof.
  apply (@unfetched_index_is_created Edge.first_run Demo.start Demo.frontmatter
           (PStr "my-post") Edge.not_found Demo.my_entry
           (Demo.text_of (Py.obj [("metadata", PList [Demo.my_entry])])));
    reflexivity.
Defined.

Lemma append_touches_metadata_only_witness :
  exists idx',
    PyOps.getitem_append (PDict Edge.versioned_index) "metadata" Demo.my_entry
      = inr (PDict idx')
    /\ Py.lookup "metadata" idx' = Some (PList ([Demo.old_entry] ++ [Demo.my_entry]))
    /\ (forall k, k <> "metadata" ->
                  Py.lookup k idx' = Py.lookup k Edge.versioned_index)
    /\ map fst idx' = map fst Edge.versioned_index.
Proof.
  apply (@append_touches_metadata_only Edge.versioned_index [Demo.old_entry]
           Demo.my_entry).
  reflexivity.
Defined.

Lemma index_without_metadata_escapes_witness :
  update_index Edge.bare Demo.frontmatter (PStr "my-post") Demo.start =
    (inl (Raise KeyError "'metadata'"),
     log_event (EvGetContents metadata_path) Demo.start).
Proof.
  apply (@index_without_metadata_escapes Edge.bare Demo.start Demo.frontmatter
           (PStr "my-post") Edge.bare_index "{}" [] Demo.my_entry);
    reflexivity.
Defined.

Lemma author_must_be_a_mapping_witness :
  new_entry Demo.E (PDict [(PStr "author", PStr "Bob")]) (PStr "default-slug") =
    inl (Raise AttributeError "'str' object has no attribute 'get'")
  /\ update_index Demo.E (PDict [(PStr "author", PStr "Bob")]) (PStr "default-slug")
                  Demo.start =
       (inl (Raise AttributeError "'str' object has no attribute 'get'"),
        log_event (EvGetContents metadata_path) Demo.start).
Proof.
  apply (@author_must_be_a_mapping Demo.E Demo.start
           [(PStr "author", PStr "Bob")] (PStr "default-slug") (PStr "Bob")).
  - reflexivity.
  - discriminate.
Defined.

Lemma entry_points_at_the_post_witness :
  exists Y outstatic,
    new_entry Demo.E Demo.frontmatter (PStr "my-post") = inr Y
    /\ PyOps.getitem Y "collection" = inr (PStr "blogs")
    /\ PyOps.getitem Y "slug" = inr (PStr "my-post")
    /\ PyOps.getitem Y "__outstatic" = inr outstatic
    /\ PyOps.getitem Y "path" = inr (PStr "outstatic/content/blogs/my-post.md")
    /\ PyOps.getitem outstatic "path" = inr (PStr "outstatic/content/blogs/my-post.md")
    /\ forall j' out,
         PyOps.getitem_append (Py.obj [("metadata", PList [Demo.old_entry])])
                              "metadata" Y = inr j' ->
         json_dumps Demo.E j' = inr out ->
         exists rest,
           trace (snd (git_push_callback Demo.E (Demo.written Demo.post))) =
             ([ EvTime; EvGetRepo repo_name;
                EvCreateFile "outstatic/content/blogs/my-post.md" "Add my-post.md"
                             Demo.post;
                EvGetContents metadata_path;
                EvUpdateFile metadata_path "Update metadata" out "3b18e5" ]
                ++ rest)%list
           /\ only_clock rest = true.
Proof.
  apply (@entry_points_at_the_post Demo.E (Demo.written Demo.post) Demo.post
           [(PStr "title", PStr "Hello"); (PStr "slug", PStr "my-post")]
           (PStr "my-post")
           (Some {| decoded := inr Demo.old_index_text; sha := "3b18e5" |})
           (Py.obj [("metadata", PList [Demo.old_entry])])
           (demo_reads Demo.post) eq_refl eq_refl).
  - left. reflexivity.
  - reflexivity.
  - reflexivity.
Defined.

Lemma failed_index_write_is_wrapped_witness :
  update_index Edge.stale Demo.frontmatter (PStr "my-post") Demo.start =
    (inl (Raise RuntimeError
            "Metadata update failed: 409 metadata.json does not match the sha"),
     log_event
       (EvUpdateFile metadata_path "Update metadata"
          (Demo.text_of (Py.obj [("metadata", PList [Demo.old_entry; Demo.my_entry])]))
          "3b18e5")
       (log_event (EvGetContents metadata_path) Demo.start)).
Proof.
  destruct (@failed_index_write_is_wrapped Edge.stale Demo.start Demo.frontmatter
              (PStr "my-post")
              {| decoded := inr Demo.old_index_text; sha := "3b18e5" |}
              Demo.my_entry
              (Py.obj [("metadata", PList [Demo.old_entry; Demo.my_entry])])
              eq_refl eq_refl eq_refl) as [_ Hupdate].
  apply (Hupdate
           (Demo.text_of (Py.obj [("metadata", PList [Demo.old_entry; Demo.my_entry])]))
           Edge.conflict); reflexivity.
Defined.

Lemma published_text_has_no_carriage_return_witness :
  nth_error (trace (snd (git_push_callback Demo.E (Demo.written Edge.dos_text)))) 2
    = Some (EvCreateFile "outstatic/content/blogs/default-slug.md"
                         "Add default-slug.md" ("Line one" ++ nl ++ "Line two"))
  /\ (exists text,
         report_md (Demo.written Edge.dos_text) = Some text
         /\ fst (read_report (Demo.written Edge.dos_text))
            = inr (Some (PyStr.universal_newlines text))
         /\ "Line one" ++ nl ++ "Line two"
            = PyStr.strip (PyStr.universal_newlines text))
  /\ all_chars not_CR ("Line one" ++ nl ++ "Line two") = true.
Proof.
  split; [reflexivity|].
  exact (@published_text_has_no_carriage_return Demo.E (Demo.written Edge.dos_text)
           "outstatic/content/blogs/default-slug.md" "Add default-slug.md"
           ("Line one" ++ nl ++ "Line two") eq_refl).
Defined.

Lemma frontmatter_ends_at_first_delimiter_witness :
  parse_frontmatter Demo.E Edge.ruled_post = inr (Py.obj [("slug", PStr "my post")]).
Proof.
  apply (@frontmatter_ends_at_first_delimiter Demo.E Edge.ruled_post 20).
  - reflexivity.
  - lia.
  - reflexivity.
  - intros j Hlo Hhi.
    do 20 (destruct j as [|j]; [first [lia | vm_compute; discriminate]|]).
    lia.
Defined.

Lemma failed_title_call_answers_500_witness :
  serve (trigger_event Edge.silent) Demo.start =
    ({| status := 500;
        body := Py.obj [("detail",
                         PStr "Title generation failed: Connection error.")] |},
     {| trace := [ EvTime; EvRandom; EvTime;
                   EvChat "gpt-4o-mini" (title_prompt "Web3") 50 ];
        report_md := None |}).
Proof.
  apply (@failed_title_call_answers_500 Edge.silent Demo.start Edge.unreachable).
  reflexivity.
Defined.

Lemma refused_commit_answers_500_witness :
  fst (serve (trigger_event Edge.refusing) Demo.start) =
    {| status := 500;
       body := Py.obj [("detail",
                        PStr "Push failed: 422 Invalid request: sha was not supplied")] |}.
Proof.
  refine (@refused_commit_answers_500 Edge.refusing _ _ _ Edge.refusal _ _ Demo.start).
  - intros h prompt n. eexists. split; [reflexivity|].
    unfold Demo.replies. destruct (n =? 600)%Z; reflexivity.
  - exists "ghp_token". split; [reflexivity|discriminate].
  - reflexivity.
  - reflexivity.
  - intros h prompt text H. injection H as <-.
    exists Demo.frontmatter, (PStr "my-post"). split; reflexivity.
Defined.

(* ===================================================================== *)
(** ** From the Post Writer to the commit *)
(* ===================================================================== *)

Module PyStrRoundTrip.
Import PyStr.

Lemma not_CR_code c : not_CR c = true -> (code c =? 13)%nat = false.
Proof. destruct c as [[] [] [] [] [] [] [] []]; intros H; first [reflexivity|discriminate]. Qed.

Lemma universal_newlines_id s :
  all_chars not_CR s = true -> universal_newlines s = s.
Proof.
  induction s as [|c r IH]; [reflexivity|].
  intros H. apply andb_true_iff in H as [Hc Hr].
  simpl. rewrite (not_CR_code _ Hc), (IH Hr). reflexivity.
Qed.

Lemma rstrip_idem s : rstrip (rstrip s) = rstrip s.
Proof.
  induction s as [|c r IH]; [reflexivity|].
  simpl. destruct (rstrip r) as [|d r'] eqn:Hr.
  - destruct (isspace c) eqn:Hc; [reflexivity|].
    simpl. rewrite Hc. reflexivity.
  - change (rstrip (String c (String d r')))
      with (match rstrip (String d r') with
            | EmptyString => if isspace c then EmptyString else String c EmptyString
            | r'' => String c r''
            end).
    rewrite IH. reflexivity.
Qed.

Lemma strip_idem s : strip (strip s) = strip s.
Proof.
  unfold strip.
  destruct (lstrip s) as [|c r] eqn:Hl; [reflexivity|].
  pose proof (PyStrFacts.lstrip_head _ Hl) as Hc.
  destruct (@PyStrFacts.rstrip_head c r Hc) as [r' Hr'].
  rewrite Hr'. simpl lstrip. rewrite Hc. rewrite <- Hr'. apply rstrip_idem.
Qed.

End PyStrRoundTrip.

Section RoundTrip.

Variable E : env.

(** What [write_blog_post] returns when it returns: the model's text,
    stripped, after three calls (lines 146-160). *)
Lemma write_blog_post_returns topic research_output name picture cover date w post w1 :
  write_blog_post E topic research_output name picture cover date w = (inr post, w1) ->
  exists text,
    chat_completions_create E (trace w ++ [EvTime])
      (blog_prompt topic research_output name picture cover date) 600 = inr (Some text)
    /\ post = PyStr.strip text
    /\ w1 = log_event EvTime
              (log_event
                 (EvChat "gpt-4o-mini"
                    (blog_prompt topic research_output name picture cover date) 600)
                 (log_event EvTime w)).
Proof.
  unfold write_blog_post. run.
  destruct (chat_completions_create E (trace w ++ [EvTime])
              (blog_prompt topic research_output name picture cover date) 600)
    as [e|[text|]]; run; try discriminate.
  destruct (is_empty (PyStr.strip text)); run; [discriminate|].
  intros H. injection H as <- <-. exists text. repeat split.
Qed.

(** X20. What the Post Writer returns is what the Publisher commits.  When
    [write_blog_post] returns [post], [run_agent] writes it to the report
    and reads the clock (lines 326-329), and [git_push_callback] then gets
    as far as a third call, that call is the commit of [post] itself, under
    the slug of its own frontmatter, provided [post] has no carriage return
    in it: reading the report back in text mode and stripping it again
    change nothing. *)
Theorem report_round_trip topic research_output name picture cover date
        w post w1 t w2 e :
  write_blog_post E topic research_output name picture cover date w = (inr post, w1) ->
  (write_report post ;;; now_time E) w1 = (inr t, w2) ->
  all_chars not_CR post = true ->
  nth_error (trace (snd (git_push_callback E w2))) (length (trace w2) + 2) = Some e ->
  fst (read_report w2) = inr (Some post)
  /\ exists metadata slug,
       parse_frontmatter E post = inr metadata
       /\ PyOps.get metadata "slug" (PStr "default-slug") = inr slug
       /\ e = EvCreateFile (blogs_dir ++ py_str E slug ++ ".md")
                           ("Add " ++ py_str E slug ++ ".md") post.
Proof.
  intros Hpost Hwrite Hcr Hcommit.
  destruct (write_blog_post_returns _ _ _ _ _ _ _ Hpost) as (text & _ & Hstrip & _).
  assert (Hreport : report_md w2 = Some post).
  { revert Hwrite. run. intros H. injection H as _ <-. reflexivity. }
  assert (Hsame : PyStr.strip (PyStr.universal_newlines post) = post).
  { rewrite (PyStrRoundTrip.universal_newlines_id _ Hcr).
    rewrite Hstrip. apply PyStrRoundTrip.strip_idem. }
  split.
  - unfold read_report. cbn [fst]. rewrite Hreport. cbn [option_map].
    rewrite (PyStrRoundTrip.universal_newlines_id _ Hcr). reflexivity.
  - destruct (git_push_callback_commit _ _ Hcommit)
      as (written & metadata & slug & Hw & Hparse & Hslug & He).
    rewrite Hreport in Hw. injection Hw as <-.
    rewrite Hsame in Hparse, He.
    exists metadata, slug. repeat split; assumption.
Qed.

End RoundTrip.

Lemma report_round_trip_witness :
  fst (write_blog_post (Demo.make (Demo.replies (nl ++ Demo.post ++ "  ")) Demo.remote)
         "Rust" "notes" author_name author_picture_url "c.png" "2025" Demo.start)
    = inr Demo.post
  /\ exists metadata slug,
       parse_frontmatter (Demo.make (Demo.replies (nl ++ Demo.post ++ "  ")) Demo.remote)
                         Demo.post = inr metadata
       /\ PyOps.get metadata "slug" (PStr "default-slug") = inr slug
       /\ EvCreateFile "outstatic/content/blogs/my-post.md" "Add my-post.md" Demo.post
          = EvCreateFile
              (blogs_dir
                 ++ py_str (Demo.make (Demo.replies (nl ++ Demo.post ++ "  ")) Demo.remote)
                           slug
                 ++ ".md")
              ("Add "
                 ++ py_str (Demo.make (Demo.replies (nl ++ Demo.post ++ "  ")) Demo.remote)
                           slug
                 ++ ".md")
              Demo.post.
Proof.
  split; [reflexivity|].
  refine (proj2 (@report_round_trip
                   (Demo.make (Demo.replies (nl ++ Demo.post ++ "  ")) Demo.remote)
                   "Rust" "notes" author_name author_picture_url "c.png" "2025"
                   Demo.start Demo.post _ _ _ _ eq_refl eq_refl eq_refl eq_refl)).
Defined.
